(** * pulsar.async.protocols: consumers, connections and producers

    A shallow embedding of [pulsar/async/protocols.py].  Python objects live
    in a store ([World]) indexed by object identity; methods are computations
    in a state-and-exception monad [M] over that store.  State changes made
    before an exception is raised persist, as they do in Python. *)

From stdpp Require Import base gmap strings list pretty.
From Stdlib Require Import ZArith.
From Stdlib.Strings Require Import Byte.

Local Open Scope string_scope.
Local Open Scope list_scope.
Local Open Scope Z_scope.

(** ** Values *)

Definition bytes := list Byte.byte.

Definition consumer_id := nat.
Definition conn_id := nat.
Definition producer_id := nat.
Definition cell_id := nat.

(** The instances of [Exception]: those that the module raises, and those
    raised by the methods of a subclass ([UserError]).  [except Exception]
    catches them all; [KeyboardInterrupt], [SystemExit] and [GeneratorExit],
    which it lets through, are left out. *)
Inductive Exn :=
| RuntimeError (msg : string)
| ProtocolError (msg : string)
| TooManyConnections (msg : string)
| AssertionError (msg : string)
| UserError (tag : nat).

(** Event payloads and results. *)
Inductive PyVal :=
| PyNone
| PyObj (tag : nat)
| PyBytes (b : bytes)
| PyExcInfo (e : Exn).

Definition is_not_None (v : PyVal) : bool :=
  match v with PyNone => false | _ => true end.

(** Truth value of the residual returned by a consumer: [None] and the
    empty bytes object are false. *)
Definition truthy (data : option bytes) : bool :=
  match data with
  | Some (_ :: _) => true
  | _ => false
  end.

(** ** Event handlers *)

Inductive EventHandlerRef :=
| Consumer_ (k : consumer_id)
| Connection_ (c : conn_id)
| Producer_ (p : producer_id).

(** Subscribers: opaque observers, and the two bound methods that
    [ConnectionProducer.new_connection] subscribes. *)
Inductive Handler :=
| Observer (tag : nat)
| _add_connection (p : producer_id) (c : conn_id)
| _remove_connection (p : producer_id) (c : conn_id).

(** A one-time event is a reference to a completion cell; a many-times
    event is an ordered list of subscribers. *)
Inductive Event :=
| OneTime (cell : cell_id)
| ManyTimes (handlers : list Handler).

Record Cell := {
  cell_outcome : option PyVal;
  cell_callbacks : list Handler
}.

Definition pending : Cell := {| cell_outcome := None; cell_callbacks := [] |}.

Definition done (c : Cell) : bool :=
  match cell_outcome c with Some _ => true | None => false end.

(** ** Objects *)

(** A consumer factory: a [ProtocolConsumer] subclass, or the partial
    application of [Connection._upgrade] installed by [Connection.upgrade]. *)
Inductive Factory :=
| ConsumerClass (cls : nat)
| partial__upgrade (self : conn_id) (factory : Factory)
                   (old_consumer : consumer_id) (post_request_event : cell_id).

Record Transport := {
  closing : bool;
  sock : nat;
  rawsock : option nat
}.

Record ConsumerState := {
  consumer_class : nat;
  _connection : option conn_id;
  _request : PyVal;
  _data_received_count : Z;
  _reconnect_retries : Z;
  _upgraded_from : option consumer_id;
  _new_connection : option bool;
  consumer_events : gmap string Event
}.

Record ConnectionState := {
  _session : Z;
  _processed : Z;
  _timeout : Z;
  _consumer_factory : Factory;
  _producer : option producer_id;
  _transport : option Transport;
  _current_consumer : option consumer_id;
  _idle_timeout : option Z;
  connection_events : gmap string Event
}.

Record ProducerState := {
  producer_timeout : Z;
  _max_connections : Z;
  _received : Z;
  _concurrent_connections : gset conn_id;
  producer_events : gmap string Event
}.

(** What the run leaves behind for an observer. *)
Inductive Via :=
| OneTimeCell (cell : cell_id)
| ManyTimesOf (o : EventHandlerRef) (name : string).

Inductive TraceEntry :=
| Fire (o : EventHandlerRef) (name : string) (data : PyVal)
| Call (h : Handler) (via : Via) (data : PyVal)
| Hook (k : consumer_id) (method : string) (arg : PyVal)
| LogFailure (exc : PyVal).

Record World := {
  consumers : gmap consumer_id ConsumerState;
  connections : gmap conn_id ConnectionState;
  producers : gmap producer_id ProducerState;
  cells : gmap cell_id Cell;
  trace : list TraceEntry
}.

Definition empty_world : World :=
  {| consumers := ∅; connections := ∅; producers := ∅; cells := ∅; trace := [] |}.

Definition set_consumers (f : gmap consumer_id ConsumerState → gmap consumer_id ConsumerState)
    (w : World) : World :=
  {| consumers := f (consumers w); connections := connections w;
     producers := producers w; cells := cells w; trace := trace w |}.

Definition set_connections (f : gmap conn_id ConnectionState → gmap conn_id ConnectionState)
    (w : World) : World :=
  {| consumers := consumers w; connections := f (connections w);
     producers := producers w; cells := cells w; trace := trace w |}.

Definition set_producers (f : gmap producer_id ProducerState → gmap producer_id ProducerState)
    (w : World) : World :=
  {| consumers := consumers w; connections := connections w;
     producers := f (producers w); cells := cells w; trace := trace w |}.

Definition set_cells (f : gmap cell_id Cell → gmap cell_id Cell) (w : World) : World :=
  {| consumers := consumers w; connections := connections w;
     producers := producers w; cells := f (cells w); trace := trace w |}.

Definition add_trace (e : TraceEntry) (w : World) : World :=
  {| consumers := consumers w; connections := connections w;
     producers := producers w; cells := cells w; trace := trace w ++ [e] |}.

(** ** The monad *)

Inductive Outcome (A : Type) :=
| Ret (a : A)
| Raise (e : Exn)
| Stuck
| OutOfFuel.
Arguments Ret {A} a.
Arguments Raise {A} e.
Arguments Stuck {A}.
Arguments OutOfFuel {A}.

Definition M (A : Type) : Type := World → Outcome A * World.

Definition ret {A} (a : A) : M A := λ w, (Ret a, w).

Definition bind {A B} (m : M A) (k : A → M B) : M B :=
  λ w, match m w with
       | (Ret a, w') => k a w'
       | (Raise e, w') => (Raise e, w')
       | (Stuck, w') => (Stuck, w')
       | (OutOfFuel, w') => (OutOfFuel, w')
       end.

Definition raise {A} (e : Exn) : M A := λ w, (Raise e, w).

(** [try: m except Exception: h] *)
Definition try_except {A} (m : M A) (h : Exn → M A) : M A :=
  λ w, match m w with
       | (Raise e, w') => h e w'
       | r => r
       end.

Declare Scope M_scope.
Delimit Scope M_scope with M.
Bind Scope M_scope with M.
Notation "x ← m ; k" := (bind m (λ x, k))
  (at level 20, m at level 100, k at level 200, only parsing) : M_scope.
Notation "m ;; k" := (bind m (λ _, k))
  (at level 100, k at level 200, right associativity, only parsing) : M_scope.
Local Open Scope M_scope.

Definition log (e : TraceEntry) : M unit := λ w, (Ret tt, add_trace e w).

Definition get_consumer (k : consumer_id) : M ConsumerState :=
  λ w, match consumers w !! k with
       | Some s => (Ret s, w)
       | None => (Stuck, w)
       end.

Definition put_consumer (k : consumer_id) (s : ConsumerState) : M unit :=
  λ w, (Ret tt, set_consumers (insert k s) w).

Definition get_connection (c : conn_id) : M ConnectionState :=
  λ w, match connections w !! c with
       | Some s => (Ret s, w)
       | None => (Stuck, w)
       end.

Definition put_connection (c : conn_id) (s : ConnectionState) : M unit :=
  λ w, (Ret tt, set_connections (insert c s) w).

Definition get_producer (p : producer_id) : M ProducerState :=
  λ w, match producers w !! p with
       | Some s => (Ret s, w)
       | None => (Stuck, w)
       end.

Definition put_producer (p : producer_id) (s : ProducerState) : M unit :=
  λ w, (Ret tt, set_producers (insert p s) w).

Definition get_cell (i : cell_id) : M Cell :=
  λ w, match cells w !! i with
       | Some s => (Ret s, w)
       | None => (Stuck, w)
       end.

Definition put_cell (i : cell_id) (s : Cell) : M unit :=
  λ w, (Ret tt, set_cells (insert i s) w).

(** A new pending completion cell (a new [Deferred]). *)
Definition new_cell : M cell_id :=
  λ w, let i := fresh (dom (cells w)) in
       (Ret i, set_cells (insert i pending) w).

(** ** EventHandler *)

Module EventHandler.

(** The [EventHandler] base class is imported from [pulsar/async/defer.py],
    which is not part of the sources: its methods are modelled from sections
    3 and 4.1 of the specification.  One-time events hold a completion cell
    that resolves at most once; many-times events hold an ordered list of
    subscribers; subscribers never raise into the caller. *)

(** Modelled from the spec: the [events] dictionary of an [EventHandler],
    from event names to events. *)
Definition events (self : EventHandlerRef) : M (gmap string Event) :=
  match self with
  | Consumer_ k => s ← get_consumer k; ret (consumer_events s)
  | Connection_ c => s ← get_connection c; ret (connection_events s)
  | Producer_ p => s ← get_producer p; ret (producer_events s)
  end.

Definition set_consumer_events (ev : gmap string Event) (s : ConsumerState) : ConsumerState :=
  {| consumer_class := consumer_class s; _connection := _connection s;
     _request := _request s; _data_received_count := _data_received_count s;
     _reconnect_retries := _reconnect_retries s; _upgraded_from := _upgraded_from s;
     _new_connection := _new_connection s; consumer_events := ev |}.

Definition set_connection_events (ev : gmap string Event) (s : ConnectionState) : ConnectionState :=
  {| _session := _session s; _processed := _processed s; _timeout := _timeout s;
     _consumer_factory := _consumer_factory s; _producer := _producer s;
     _transport := _transport s; _current_consumer := _current_consumer s;
     _idle_timeout := _idle_timeout s; connection_events := ev |}.

Definition set_producer_events (ev : gmap string Event) (s : ProducerState) : ProducerState :=
  {| producer_timeout := producer_timeout s; _max_connections := _max_connections s;
     _received := _received s; _concurrent_connections := _concurrent_connections s;
     producer_events := ev |}.

(** [self.events[name] = e] *)
Definition set_event (self : EventHandlerRef) (name : string) (e : Event) : M unit :=
  match self with
  | Consumer_ k =>
      s ← get_consumer k;
      put_consumer k (set_consumer_events (<[name := e]> (consumer_events s)) s)
  | Connection_ c =>
      s ← get_connection c;
      put_connection c (set_connection_events (<[name := e]> (connection_events s)) s)
  | Producer_ p =>
      s ← get_producer p;
      put_producer p (set_producer_events (<[name := e]> (producer_events s)) s)
  end.

Definition set_concurrent (f : gset conn_id → gset conn_id) (s : ProducerState) : ProducerState :=
  {| producer_timeout := producer_timeout s; _max_connections := _max_connections s;
     _received := _received s; _concurrent_connections := f (_concurrent_connections s);
     producer_events := producer_events s |}.

(** Modelled from the spec: the invocation of one subscriber of an
    [EventHandler].  An observer only leaves a trace entry; the two bound
    methods of the producer update its set of live connections, as
    [ConnectionProducer._add_connection] and [_remove_connection] do. *)
Definition run_handler (via : Via) (data : PyVal) (w : World) (h : Handler) : World :=
  let w := add_trace (Call h via data) w in
  match h with
  | Observer _ => w
  | _add_connection p c =>
      set_producers (alter (set_concurrent (λ s, {[c]} ∪ s)) p) w
  | _remove_connection p c =>
      set_producers (alter (set_concurrent (λ s, s ∖ {[c]})) p) w
  end.

Definition run_handlers (via : Via) (hs : list Handler) (data : PyVal) : M unit :=
  λ w, (Ret tt, foldl (run_handler via data) w hs).

Definition resolve (data : PyVal) (c : Cell) : Cell :=
  {| cell_outcome := Some data; cell_callbacks := cell_callbacks c |}.

Definition add_callback (h : Handler) (c : Cell) : Cell :=
  {| cell_outcome := cell_outcome c; cell_callbacks := cell_callbacks c ++ [h] |}.

(** Modelled from the spec: [EventHandler.fire_event].  A one-time event
    resolves its cell if it is pending, runs the callbacks of the cell and
    answers [True]; resolved, it does nothing and answers [False].  A
    many-times event runs its subscribers in the order of subscription. *)
Definition fire_event (self : EventHandlerRef) (name : string) (data : PyVal) : M bool :=
  log (Fire self name data);;
  ev ← events self;
  match ev !! name with
  | Some (OneTime i) =>
      c ← get_cell i;
      if done c then ret false
      else
        put_cell i (resolve data c);;
        run_handlers (OneTimeCell i) (cell_callbacks c) data;;
        ret true
  | Some (ManyTimes hs) =>
      run_handlers (ManyTimesOf self name) hs data;;
      ret true
  | None => ret false
  end.

(** Modelled from the spec: [EventHandler.bind_event].  On a resolved
    one-time event the handler is invoked at once with the stored outcome. *)
Definition bind_event (self : EventHandlerRef) (name : string) (h : Handler) : M unit :=
  ev ← events self;
  match ev !! name with
  | Some (OneTime i) =>
      c ← get_cell i;
      match cell_outcome c with
      | Some outcome => run_handlers (OneTimeCell i) [h] outcome
      | None => put_cell i (add_callback h c)
      end
  | Some (ManyTimes hs) => set_event self name (ManyTimes (hs ++ [h]))
  | None => ret tt
  end.

(** Modelled from the spec: [EventHandler.event], the completion cell of a
    one-time event. *)
Definition event (self : EventHandlerRef) (name : string) : M Cell :=
  ev ← events self;
  match ev !! name with
  | Some (OneTime i) => get_cell i
  | _ => λ w, (Stuck, w)
  end.

(** Modelled from the spec: [EventHandler.pop_event], which detaches the
    cell of a one-time event and leaves a new pending one in its place. *)
Definition pop_event (self : EventHandlerRef) (name : string) : M cell_id :=
  ev ← events self;
  match ev !! name with
  | Some (OneTime i) =>
      j ← new_cell;
      set_event self name (OneTime j);;
      ret i
  | _ => λ w, (Stuck, w)
  end.

(** Modelled from the spec: the many-times event names that
    [copy_many_times_events] finds shared with [source], each with the
    subscribers of [source]. *)
Definition shared_many_times (mine theirs : gmap string Event) : list (string * list Handler) :=
  omap (λ '(name, e),
          match e, mine !! name with
          | ManyTimes hs, Some (ManyTimes _) => Some (name, hs)
          | _, _ => None
          end) (map_to_list theirs).

Fixpoint bind_all (self : EventHandlerRef) (name : string) (hs : list Handler) : M unit :=
  match hs with
  | [] => ret tt
  | h :: hs => bind_event self name h;; bind_all self name hs
  end.

Fixpoint copy_each (self : EventHandlerRef) (l : list (string * list Handler)) : M unit :=
  match l with
  | [] => ret tt
  | (name, hs) :: l => bind_all self name hs;; copy_each self l
  end.

(** Modelled from the spec: [EventHandler.copy_many_times_events], which
    appends, for each many-times event name shared with [source], the
    subscribers of [source] to those of [self], in order. *)
Definition copy_many_times_events (self source : EventHandlerRef) : M unit :=
  mine ← events self;
  theirs ← events source;
  copy_each self (shared_many_times mine theirs).

(** Modelled from the spec: [EventHandler.__init__] builds the [events]
    dictionary from the class attributes [ONE_TIME_EVENTS] (a pending cell
    each) and [MANY_TIMES_EVENTS] (no subscriber yet). *)
Fixpoint one_time_events (names : list string) (ev : gmap string Event) : M (gmap string Event) :=
  match names with
  | [] => ret ev
  | name :: names =>
      i ← new_cell;
      one_time_events names (<[name := OneTime i]> ev)
  end.

Definition many_times_events (names : list string) (ev : gmap string Event) : gmap string Event :=
  foldl (λ ev name, <[name := ManyTimes []]> ev) ev names.

Definition __init__ (ONE_TIME_EVENTS MANY_TIMES_EVENTS : list string) : M (gmap string Event) :=
  ev ← one_time_events ONE_TIME_EVENTS ∅;
  ret (many_times_events MANY_TIMES_EVENTS ev).

End EventHandler.

(** ** ProtocolConsumer *)

(** Modelled from the spec: the exception object handed to
    [can_reconnect], with its [logged] flag and the number of times its
    [log] method has been called (the class is not part of the sources). *)
Record Failure := {
  logged : bool;
  log_calls : nat
}.

Module ProtocolConsumer.

Definition ONE_TIME_EVENTS : list string := ["pre_request"; "finish"; "post_request"].
Definition MANY_TIMES_EVENTS : list string := ["data_received"; "data_processed"].

Definition set__connection (v : option conn_id) (s : ConsumerState) : ConsumerState :=
  {| consumer_class := consumer_class s; _connection := v;
     _request := _request s; _data_received_count := _data_received_count s;
     _reconnect_retries := _reconnect_retries s; _upgraded_from := _upgraded_from s;
     _new_connection := _new_connection s; consumer_events := consumer_events s |}.

Definition set__request (v : PyVal) (s : ConsumerState) : ConsumerState :=
  {| consumer_class := consumer_class s; _connection := _connection s;
     _request := v; _data_received_count := _data_received_count s;
     _reconnect_retries := _reconnect_retries s; _upgraded_from := _upgraded_from s;
     _new_connection := _new_connection s; consumer_events := consumer_events s |}.

Definition set__data_received_count (v : Z) (s : ConsumerState) : ConsumerState :=
  {| consumer_class := consumer_class s; _connection := _connection s;
     _request := _request s; _data_received_count := v;
     _reconnect_retries := _reconnect_retries s; _upgraded_from := _upgraded_from s;
     _new_connection := _new_connection s; consumer_events := consumer_events s |}.

Definition set__reconnect_retries (v : Z) (s : ConsumerState) : ConsumerState :=
  {| consumer_class := consumer_class s; _connection := _connection s;
     _request := _request s; _data_received_count := _data_received_count s;
     _reconnect_retries := v; _upgraded_from := _upgraded_from s;
     _new_connection := _new_connection s; consumer_events := consumer_events s |}.

Definition set__upgraded_from (v : option consumer_id) (s : ConsumerState) : ConsumerState :=
  {| consumer_class := consumer_class s; _connection := _connection s;
     _request := _request s; _data_received_count := _data_received_count s;
     _reconnect_retries := _reconnect_retries s; _upgraded_from := v;
     _new_connection := _new_connection s; consumer_events := consumer_events s |}.

Definition set__new_connection (v : option bool) (s : ConsumerState) : ConsumerState :=
  {| consumer_class := consumer_class s; _connection := _connection s;
     _request := _request s; _data_received_count := _data_received_count s;
     _reconnect_retries := _reconnect_retries s; _upgraded_from := _upgraded_from s;
     _new_connection := v; consumer_events := consumer_events s |}.

(** [self.attr = v] on a consumer *)
Definition update (self : consumer_id) (f : ConsumerState → ConsumerState) : M unit :=
  s ← get_consumer self;
  put_consumer self (f s).

Definition set__current_consumer (v : option consumer_id) (s : ConnectionState) : ConnectionState :=
  {| _session := _session s; _processed := _processed s; _timeout := _timeout s;
     _consumer_factory := _consumer_factory s; _producer := _producer s;
     _transport := _transport s; _current_consumer := v;
     _idle_timeout := _idle_timeout s; connection_events := connection_events s |}.

(** A new consumer object.  [set_consumer] is the method of the
    [connection] argument, resolved when the call is made. *)
Definition __init__ (set_consumer : conn_id → consumer_id → M unit)
    (cls : nat) (connection : option conn_id) : M consumer_id :=
  ev ← EventHandler.__init__ ONE_TIME_EVENTS MANY_TIMES_EVENTS;
  self ← (λ w, (Ret (fresh (dom (consumers w))), w));
  put_consumer self
    {| consumer_class := cls; _connection := None; _request := PyNone;
       _data_received_count := 0; _reconnect_retries := 0;
       _upgraded_from := None; _new_connection := None;
       consumer_events := ev |};;
  match connection with
  | Some c => set_consumer c self
  | None => ret tt
  end;;
  ret self.

Definition finished (self : consumer_id) (result : PyVal) : M unit :=
  s ← get_consumer self;
  match _connection s with
  | Some c =>
      cs ← get_connection c;
      put_connection c (set__current_consumer None cs)
  | None => ret tt
  end;;
  EventHandler.fire_event (Consumer_ self) "finish" result;;
  EventHandler.fire_event (Consumer_ self) "post_request" result;;
  ret tt.

Definition connection_lost (self : consumer_id) (exc : PyVal) : M unit :=
  log (LogFailure exc);;
  finished self exc.

Definition can_reconnect (self : consumer_id) (max_reconnect : Z) (exc : Failure)
    : M (Z * Failure) :=
  s ← get_consumer self;
  stale ← match _connection s with
          | Some conn =>
              cs ← get_connection conn;
              ret ((_data_received_count s =? 0) && (1 <? _processed cs))
          | None => ret false
          end;
  if (stale : bool) then
    ret (1, {| logged := true; log_calls := log_calls exc |})
  else if _reconnect_retries s <? max_reconnect then
    put_consumer self (set__reconnect_retries (_reconnect_retries s + 1) s);;
    ret (_reconnect_retries s + 1,
         {| logged := logged exc; log_calls := S (log_calls exc) |})
  else
    ret (0, exc).

Section Hooks.

(** The methods a subclass implements. *)
Variable data_received : consumer_id → bytes → M (option bytes).
Variable start_request : consumer_id → M unit.

Definition start (self : consumer_id) (request : PyVal) : M unit :=
  s ← get_consumer self;
  match _connection s with
  | None => raise (RuntimeError "Cannot start new request. No connection.")
  | Some conn =>
      cs ← get_connection conn;
      match _transport cs with
      | None =>
          raise (RuntimeError ("<pending-connection> session " +:+ pretty (_session cs)
                               +:+ " has no transport."))
      | Some _ =>
          update self (set__request request);;
          EventHandler.fire_event (Consumer_ self) "pre_request" request;;
          if is_not_None request then
            try_except
              (log (Hook self "start_request" PyNone);; start_request self)
              (λ e, finished self (PyExcInfo e))
          else ret tt
      end
  end.

Definition _data_received (self : consumer_id) (data : bytes) : M (option bytes) :=
  update self (λ s, set__data_received_count (_data_received_count s + 1) s);;
  update self (set__reconnect_retries 0);;
  EventHandler.fire_event (Consumer_ self) "data_received" (PyBytes data);;
  log (Hook self "data_received" (PyBytes data));;
  result ← data_received self data;
  EventHandler.fire_event (Consumer_ self) "data_processed" (PyBytes data);;
  ret result.

End Hooks.

End ProtocolConsumer.

(** ** Module-level helpers *)

(** [new_connection(producer)]: its argument is the [upgraded_from]
    attribute of a consumer, [False] (here [None]) unless the consumer was
    built by an upgrade. *)
Definition new_connection (producer : option consumer_id) : M bool :=
  match producer with
  | Some k =>
      s ← get_consumer k;
      ret (default false (_new_connection s))
  | None => ret true
  end.

Definition release_connection (producer : consumer_id) : M bool :=
  s ← get_consumer producer;
  ret (default true (_new_connection s)).

(** ** Connection *)

Module Connection.

Definition ONE_TIME_EVENTS : list string := ["connection_made"; "connection_lost"].
Definition MANY_TIMES_EVENTS : list string := ["pre_request"; "finish"; "post_request"].

Definition set__processed (v : Z) (s : ConnectionState) : ConnectionState :=
  {| _session := _session s; _processed := v; _timeout := _timeout s;
     _consumer_factory := _consumer_factory s; _producer := _producer s;
     _transport := _transport s; _current_consumer := _current_consumer s;
     _idle_timeout := _idle_timeout s; connection_events := connection_events s |}.

Definition set__timeout (v : Z) (s : ConnectionState) : ConnectionState :=
  {| _session := _session s; _processed := _processed s; _timeout := v;
     _consumer_factory := _consumer_factory s; _producer := _producer s;
     _transport := _transport s; _current_consumer := _current_consumer s;
     _idle_timeout := _idle_timeout s; connection_events := connection_events s |}.

Definition set__consumer_factory (v : Factory) (s : ConnectionState) : ConnectionState :=
  {| _session := _session s; _processed := _processed s; _timeout := _timeout s;
     _consumer_factory := v; _producer := _producer s;
     _transport := _transport s; _current_consumer := _current_consumer s;
     _idle_timeout := _idle_timeout s; connection_events := connection_events s |}.

Definition set__transport (v : option Transport) (s : ConnectionState) : ConnectionState :=
  {| _session := _session s; _processed := _processed s; _timeout := _timeout s;
     _consumer_factory := _consumer_factory s; _producer := _producer s;
     _transport := v; _current_consumer := _current_consumer s;
     _idle_timeout := _idle_timeout s; connection_events := connection_events s |}.

Definition set__idle_timeout (v : option Z) (s : ConnectionState) : ConnectionState :=
  {| _session := _session s; _processed := _processed s; _timeout := _timeout s;
     _consumer_factory := _consumer_factory s; _producer := _producer s;
     _transport := _transport s; _current_consumer := _current_consumer s;
     _idle_timeout := v; connection_events := connection_events s |}.

(** [self.attr = v] on a connection *)
Definition update (self : conn_id) (f : ConnectionState → ConnectionState) : M unit :=
  s ← get_connection self;
  put_connection self (f s).

Definition __init__ (session : Z) (consumer_factory : Factory)
    (producer : option producer_id) (timeout : Z) : M conn_id :=
  ev ← EventHandler.__init__ ONE_TIME_EVENTS MANY_TIMES_EVENTS;
  self ← (λ w, (Ret (fresh (dom (connections w))), w));
  put_connection self
    {| _session := session; _processed := 0; _timeout := timeout;
       _consumer_factory := consumer_factory; _producer := producer;
       _transport := None; _current_consumer := None; _idle_timeout := None;
       connection_events := ev |};;
  ret self.

(** [True] if the transport is closed; a missing transport reads as closed. *)
Definition closed (s : ConnectionState) : bool :=
  match _transport s with
  | Some t => closing t
  | None => true
  end.

(** Modelled from the spec: [transport.close], of the transport interface
    the core consumes (spec section 6); it leaves the transport closing. *)
Definition transport_close (async : bool) (exc : PyVal) (t : Transport) : Transport :=
  {| closing := true; sock := sock t; rawsock := rawsock t |}.

Definition close (self : conn_id) (async : bool) (exc : PyVal) : M unit :=
  s ← get_connection self;
  match _transport s with
  | Some t => put_connection self (set__transport (Some (transport_close async exc t)) s)
  | None => ret tt
  end.

Definition abort (self : conn_id) (exc : PyVal) : M unit :=
  s ← get_connection self;
  match _transport s with
  | Some t => put_connection self (set__transport (Some (transport_close false exc t)) s)
  | None => ret tt
  end.

Definition _add_idle_timeout (self : conn_id) : M unit :=
  s ← get_connection self;
  if negb (closed s) && negb (bool_decide (is_Some (_idle_timeout s)))
     && negb (_timeout s =? 0)
  then put_connection self (set__idle_timeout (Some (_timeout s)) s)
  else ret tt.

Definition _cancel_timeout (self : conn_id) : M unit :=
  s ← get_connection self;
  match _idle_timeout s with
  | Some _ => put_connection self (set__idle_timeout None s)
  | None => ret tt
  end.

(** [_timed_out]: the event loop calls it when the idle timer expires; the
    line it writes to the log is left out. *)
Definition _timed_out (self : conn_id) : M unit := close self true PyNone.

Definition set_timeout (self : conn_id) (timeout : Z) : M unit :=
  _cancel_timeout self;;
  update self (set__timeout timeout);;
  _add_idle_timeout self.

Definition set_consumer (self : conn_id) (consumer : consumer_id) : M unit :=
  s ← get_connection self;
  match _current_consumer s with
  | Some _ => raise (AssertionError "Consumer is not None")
  | None =>
      put_connection self (ProtocolConsumer.set__current_consumer (Some consumer) s);;
      ProtocolConsumer.update consumer (ProtocolConsumer.set__connection (Some self));;
      k ← get_consumer consumer;
      fresh_request ← new_connection (_upgraded_from k);
      (if (fresh_request : bool) then
         EventHandler.copy_many_times_events (Consumer_ consumer) (Connection_ self);;
         update self (λ s, set__processed (_processed s + 1) s)
       else ret tt)
      (* consumer.connection_made(self) does nothing *)
  end.

Definition connection_made (self : conn_id) (transport : Transport) : M unit :=
  s ← get_connection self;
  let old_transport := _transport s in
  put_connection self (set__transport (Some transport) s);;
  same_socket ← match old_transport with
                | Some old =>
                    _cancel_timeout self;;
                    ret (bool_decide (Some (sock old) = rawsock transport))
                | None => ret false
                end;
  if (same_socket : bool) then _add_idle_timeout self
  else
    EventHandler.fire_event (Connection_ self) "connection_made" PyNone;;
    _add_idle_timeout self.

Definition _upgrade (consumer_factory : M consumer_id) (old_consumer : consumer_id)
    (post_request_event : cell_id) (connection : option conn_id) : M consumer_id :=
  consumer ← consumer_factory;
  ProtocolConsumer.update consumer (ProtocolConsumer.set__upgraded_from (Some old_consumer));;
  EventHandler.set_event (Consumer_ consumer) "post_request" (OneTime post_request_event);;
  match connection with
  | Some c => set_consumer c consumer
  | None => ret tt
  end;;
  ret consumer.

(** Calling a consumer factory, with or without a connection argument. *)
Fixpoint call (f : Factory) (connection : option conn_id) : M consumer_id :=
  match f with
  | ConsumerClass cls => ProtocolConsumer.__init__ set_consumer cls connection
  | partial__upgrade _ factory old_consumer post =>
      _upgrade (call factory None) old_consumer post connection
  end.

Definition upgrade (self : conn_id) (consumer_factory : option Factory)
    (new_connection : bool) : M unit :=
  s ← get_connection self;
  consumer_factory ←
    match _current_consumer s with
    | Some consumer =>
        post_request ← EventHandler.event (Consumer_ consumer) "post_request";
        if done post_request then ret consumer_factory
        else
          pre_request ← EventHandler.event (Consumer_ consumer) "pre_request";
          if done pre_request then
            post ← EventHandler.pop_event (Consumer_ consumer) "post_request";
            ProtocolConsumer.update consumer
              (ProtocolConsumer.set__new_connection (Some new_connection));;
            let factory := default (_consumer_factory s) consumer_factory in
            ret (Some (partial__upgrade self factory consumer post))
          else raise (AssertionError "pre_request not done")
    | None => ret consumer_factory
    end;
  match consumer_factory with
  | Some f => update self (set__consumer_factory f)
  | None => ret tt
  end.

Definition connection_lost (self : conn_id) (exc : PyVal) : M unit :=
  fired ← EventHandler.fire_event (Connection_ self) "connection_lost" exc;
  if (fired : bool) then
    _cancel_timeout self;;
    s ← get_connection self;
    match _current_consumer s with
    | Some k => ProtocolConsumer.connection_lost k exc
    | None => log (LogFailure exc)
    end
  else ret tt.

Section Hooks.

Variable consumer_data_received : consumer_id → bytes → M (option bytes).
Variable start_request : consumer_id → M unit.

(** The consumer that receives the next buffer: the current one, or a new
    one built by the factory and started (server connections). *)
Definition consumer_for (self : conn_id) : M consumer_id :=
  s ← get_connection self;
  match _current_consumer s with
  | Some k => ret k
  | None =>
      k ← call (_consumer_factory s) (Some self);
      ProtocolConsumer.start start_request k PyNone;;
      ret k
  end.

(** One turn of the [while data] loop of [data_received]: the value
    produced is the buffer for the next turn. *)
Definition data_received_turn (self : conn_id) (data : bytes) : M (option bytes) :=
  consumer ← consumer_for self;
  data ← ProtocolConsumer._data_received consumer_data_received consumer data;
  s ← get_connection self;
  if truthy data && bool_decide (is_Some (_current_consumer s))
  then raise (ProtocolError "current consumer not done.")
  else ret data.

Fixpoint data_received_loop (fuel : nat) (self : conn_id) (data : bytes) : M unit :=
  match data with
  | [] => ret tt
  | _ :: _ =>
      match fuel with
      | O => λ w, (OutOfFuel, w)
      | S fuel =>
          data ← data_received_turn self data;
          data_received_loop fuel self (default [] data)
      end
  end.

Definition data_received (fuel : nat) (self : conn_id) (data : bytes) : M unit :=
  _cancel_timeout self;;
  data_received_loop fuel self data;;
  _add_idle_timeout self.

End Hooks.

End Connection.

(** ** Producer and ConnectionProducer *)

Definition BIG : Z := 2 ^ 31.

Module Producer.

(** [Producer.__init__]; the class attributes [_timeout] and
    [_max_connections] are both 0. *)
Definition __init__ (ONE_TIME_EVENTS MANY_TIMES_EVENTS : list string)
    (timeout max_connections : option Z) : M producer_id :=
  ev ← EventHandler.__init__ ONE_TIME_EVENTS MANY_TIMES_EVENTS;
  self ← (λ w, (Ret (fresh (dom (producers w))), w));
  put_producer self
    {| producer_timeout := default 0 timeout;
       _max_connections :=
         match max_connections with
         | Some m => if m =? 0 then BIG else m
         | None => BIG
         end;
       _received := 0;
       _concurrent_connections := ∅;
       producer_events := ev |};;
  ret self.

End Producer.

Module ConnectionProducer.

Definition set__received (v : Z) (s : ProducerState) : ProducerState :=
  {| producer_timeout := producer_timeout s; _max_connections := _max_connections s;
     _received := v; _concurrent_connections := _concurrent_connections s;
     producer_events := producer_events s |}.

Definition __init__ (timeout max_connections : option Z) : M producer_id :=
  Producer.__init__ [] [] timeout max_connections.

Definition new_connection (self : producer_id) (consumer_factory : Factory)
    (producer : option producer_id) : M conn_id :=
  s ← get_producer self;
  if negb (_max_connections s =? 0) && (_max_connections s <=? _received s)
  then raise (TooManyConnections "Too many connections")
  else
    let session := _received s + 1 in
    put_producer self (set__received session s);;
    let producer := default self producer in
    conn ← Connection.__init__ session consumer_factory (Some producer) (producer_timeout s);
    EventHandler.bind_event (Connection_ conn) "connection_made" (_add_connection self conn);;
    EventHandler.copy_many_times_events (Connection_ conn) (Producer_ producer);;
    EventHandler.bind_event (Connection_ conn) "connection_lost" (_remove_connection self conn);;
    ret conn.

End ConnectionProducer.

(** ** Scenarios *)

Module Scenarios.

(** A consumer class whose [data_received] takes one byte, retires and
    hands back the rest. *)
Definition one_byte (self : consumer_id) (data : bytes) : M (option bytes) :=
  ProtocolConsumer.finished self (PyBytes (take 1 data));;
  ret (Some (drop 1 data)).

(** A consumer class that reads everything and waits for more. *)
Definition hungry (self : consumer_id) (data : bytes) : M (option bytes) :=
  ret None.

(** A consumer class that hands back a residual without retiring. *)
Definition greedy (self : consumer_id) (data : bytes) : M (option bytes) :=
  ret (Some [x58%byte]).

Definition no_request (self : consumer_id) : M unit := ret tt.


Definition open_transport : Transport :=
  {| closing := false; sock := 3%nat; rawsock := None |}.

(** The subclass method chosen by the class of the consumer. *)
Definition by_class (self : consumer_id) (data : bytes) : M (option bytes) :=
  s ← get_consumer self;
  match consumer_class s with
  | O => one_byte self data
  | S O => hungry self data
  | _ => greedy self data
  end.

(** A server connection with a transport, built by its producer. *)
Definition server (timeout : Z) (max_connections : option Z) (cls : nat)
    : M (producer_id * conn_id) :=
  p ← ConnectionProducer.__init__ (Some timeout) max_connections;
  c ← ConnectionProducer.new_connection p (ConsumerClass cls) None;
  Connection.connection_made c open_transport;;
  ret (p, c).

Definition run {A} (m : M A) : Outcome A * World := m empty_world.

Definition feed (c : conn_id) (data : bytes) : M unit :=
  Connection.data_received by_class no_request 10 c data.

(** A consumer that is not bound to a connection. *)
Definition unbound : World :=
  snd (run (ProtocolConsumer.__init__ Connection.set_consumer 1 None)).

(** Connection 0 with an idle timeout of 5 seconds and no consumer yet. *)
Definition idle : World := snd (run (server 5 None 1)).

(** Connection 0 of a server whose consumers take one byte each. *)
Definition accepting : World := snd (run (server 0 None 0)).

(** Connection 0, whose consumer 0 has been bound but not started. *)
Definition bound_not_started : World :=
  snd (run (server 5 None 1;; Connection.call (ConsumerClass 1) (Some 0%nat))).

(** Connection 0, whose consumer 0 has read one byte and waits for more. *)
Definition waiting : World := snd (run (server 5 None 1;; feed 0%nat [x41%byte])).

(** Connection 0 has retired two consumers; consumer 2 has just been bound. *)
Definition kept_alive : World :=
  snd (run (server 0 None 0;; feed 0%nat [x41%byte; x42%byte];;
            Connection.call (ConsumerClass 0) (Some 0%nat))).

(** Connection 0 has retired consumer 0 and is now held by consumer 1. *)
Definition second_request : World :=
  snd (run (server 0 None 0;; feed 0%nat [x41%byte];;
            Connection.upgrade 0%nat (Some (ConsumerClass 1)) false;;
            feed 0%nat [x42%byte])).

(** Consumer 0 of connection 0 is in the middle of a request, and observer 9
    has subscribed to its [post_request]. *)
Definition observed : World :=
  snd (run (server 0 None 1;; feed 0%nat [x41%byte];;
            EventHandler.bind_event (Consumer_ 0%nat) "post_request" (Observer 9))).

(** Reading an object that is known to be in the store. *)
Definition consumer_of (w : World) (k : consumer_id) : ConsumerState :=
  default {| consumer_class := 0; _connection := None; _request := PyNone;
             _data_received_count := 0; _reconnect_retries := 0;
             _upgraded_from := None; _new_connection := None;
             consumer_events := ∅ |} (consumers w !! k).

Definition connection_of (w : World) (c : conn_id) : ConnectionState :=
  default {| _session := 0; _processed := 0; _timeout := 0;
             _consumer_factory := ConsumerClass 0; _producer := None;
             _transport := None; _current_consumer := None;
             _idle_timeout := None; connection_events := ∅ |} (connections w !! c).

Definition cell_of (w : World) (i : cell_id) : Cell := default pending (cells w !! i).

End Scenarios.

(** ** Observations used in the statements *)

(** The [events] dictionary of an object, if the object exists. *)
Definition events_of (w : World) (o : EventHandlerRef) : option (gmap string Event) :=
  match o with
  | Consumer_ k => consumer_events <$> consumers w !! k
  | Connection_ c => connection_events <$> connections w !! c
  | Producer_ p => producer_events <$> producers w !! p
  end.

(** The world in which the [events] dictionary of [o] is [ev]. *)
Definition with_events (o : EventHandlerRef) (ev : gmap string Event) (w : World) : World :=
  match o with
  | Consumer_ k => set_consumers (alter (EventHandler.set_consumer_events ev) k) w
  | Connection_ c => set_connections (alter (EventHandler.set_connection_events ev) c) w
  | Producer_ p => set_producers (alter (EventHandler.set_producer_events ev) p) w
  end.

(** [ev'] has the events of [ev]; only lists of subscribers may differ. *)
Definition many_times_ext (ev ev' : gmap string Event) : Prop :=
  ∀ name, match ev !! name with
          | Some (ManyTimes _) => ∃ hs, ev' !! name = Some (ManyTimes hs)
          | r => ev' !! name = r
          end.

(** The events of a connection just built by [Connection.__init__]. *)
Definition connection_events0 (i0 i1 : cell_id) : gmap string Event :=
  <["post_request" := ManyTimes []]> (<["finish" := ManyTimes []]>
    (<["pre_request" := ManyTimes []]> (<["connection_lost" := OneTime i1]>
      (<["connection_made" := OneTime i0]> ∅)))).

(** The stale keep-alive test of [can_reconnect]. *)
Definition stale (w : World) (s : ConsumerState) : Prop :=
  ∃ conn cs, _connection s = Some conn ∧ connections w !! conn = Some cs
             ∧ 2 ≤ _processed cs ∧ _data_received_count s = 0.

(** [n] calls of [new_connection] in a row. *)
Fixpoint new_connections (n : nat) (self : producer_id) (f : Factory) : M unit :=
  match n with
  | O => ret tt
  | S n => ConnectionProducer.new_connection self f None;; new_connections n self f
  end.

Definition calls (via : Via) (data : PyVal) (hs : list Handler) : list TraceEntry :=
  map (λ h, Call h via data) hs.

(** The callbacks that run when a one-time event whose cell is [c] is fired. *)
Definition callbacks_run (i : cell_id) (c : Cell) (data : PyVal) : list TraceEntry :=
  if done c then [] else calls (OneTimeCell i) data (cell_callbacks c).

(** The cell [c] after its event has been fired with [data]. *)
Definition fired (data : PyVal) (c : Cell) : Cell :=
  if done c then c else EventHandler.resolve data c.



(** The events of a consumer just built by [ProtocolConsumer.__init__]. *)
Definition consumer_events0 (i0 i1 i2 : cell_id) : gmap string Event :=
  <["data_processed" := ManyTimes []]> (<["data_received" := ManyTimes []]>
    (<["post_request" := OneTime i2]> (<["finish" := OneTime i1]>
      (<["pre_request" := OneTime i0]> ∅)))).


(** What [set_consumer] does to the connection: the slot is taken, and the
    consumer counts as processed unless it continues an upgraded one. *)
Definition bound (k : consumer_id) (counts : bool) (cs : ConnectionState) : ConnectionState :=
  let cs := ProtocolConsumer.set__current_consumer (Some k) cs in
  if counts then Connection.set__processed (_processed cs + 1) cs else cs.

(** [self._consumer_factory(self)], as [data_received] calls it when the
    slot is empty. *)
Definition build_consumer (self : conn_id) : M consumer_id :=
  s ← get_connection self;
  Connection.call (_consumer_factory s) (Some self).


(** The callbacks invoked through the completion cell [p], with their
    argument, in the order of the trace. *)
Definition invocations (p : cell_id) (l : list TraceEntry) : list (Handler * PyVal) :=
  omap (λ e, match e with
             | Call h (OneTimeCell q) data =>
                 if decide (q = p) then Some (h, data) else None
             | _ => None
             end) l.


(** The idle timer of a connection is armed only if the connection has a
    transport and a timeout. *)
Definition timer_ok (cs : ConnectionState) : Prop :=
  is_Some (_idle_timeout cs) → is_Some (_transport cs) ∧ _timeout cs ≠ 0.

Definition timer_inv (w : World) : Prop :=
  ∀ c cs, connections w !! c = Some cs → timer_ok cs.

(** The timer is armed only on a connection without a consumer, whose
    transport is open and whose timeout is positive. *)
Definition timer_mutex (w : World) : Prop :=
  ∀ c cs, connections w !! c = Some cs → is_Some (_idle_timeout cs) →
          _current_consumer cs = None ∧ Connection.closed cs = false ∧ 0 < _timeout cs.

(** [m] keeps [I], whatever its outcome. *)
Definition preserves {A} (I : World → Prop) (m : M A) : Prop :=
  ∀ w, I w → I (snd (m w)).

(** What can happen to the objects: the calls of the transport, of the event
    loop and of the application. *)
Inductive Operation :=
| op_set_timeout (c : conn_id) (timeout : Z)
| op_set_consumer (c : conn_id) (k : consumer_id)
| op_connection_made (c : conn_id) (transport : Transport)
| op_data_received (fuel : nat) (c : conn_id) (data : bytes)
| op_connection_lost (c : conn_id) (exc : PyVal)
| op_upgrade (c : conn_id) (consumer_factory : option Factory) (new_connection : bool)
| op_close (c : conn_id) (async : bool) (exc : PyVal)
| op_abort (c : conn_id) (exc : PyVal)
| op_timed_out (c : conn_id)
| op_build_consumer (c : conn_id)
| op_start (k : consumer_id) (request : PyVal)
| op_finished (k : consumer_id) (result : PyVal)
| op_consumer_connection_lost (k : consumer_id) (exc : PyVal)
| op_new_connection (p : producer_id) (consumer_factory : Factory)
                    (producer : option producer_id)
| op_bind_event (o : EventHandlerRef) (name : string) (h : Handler)
| op_fire_event (o : EventHandlerRef) (name : string) (data : PyVal).

Definition perform (consumer_data_received : consumer_id → bytes → M (option bytes))
    (start_request : consumer_id → M unit) (op : Operation) : M unit :=
  match op with
  | op_set_timeout c timeout => Connection.set_timeout c timeout
  | op_set_consumer c k => Connection.set_consumer c k
  | op_connection_made c transport => Connection.connection_made c transport
  | op_data_received fuel c data =>
      Connection.data_received consumer_data_received start_request fuel c data
  | op_connection_lost c exc => Connection.connection_lost c exc
  | op_upgrade c consumer_factory new_connection =>
      Connection.upgrade c consumer_factory new_connection
  | op_close c async exc => Connection.close c async exc
  | op_abort c exc => Connection.abort c exc
  | op_timed_out c => Connection._timed_out c
  | op_build_consumer c => build_consumer c;; ret tt
  | op_start k request => ProtocolConsumer.start start_request k request
  | op_finished k result => ProtocolConsumer.finished k result
  | op_consumer_connection_lost k exc => ProtocolConsumer.connection_lost k exc
  | op_new_connection p consumer_factory producer =>
      ConnectionProducer.new_connection p consumer_factory producer;; ret tt
  | op_bind_event o name h => EventHandler.bind_event o name h
  | op_fire_event o name data => EventHandler.fire_event o name data;; ret tt
  end.

(** ** Definitions for further properties of the code *)

(** The connection after its idle timer has been cancelled and armed again:
    armed only with an open transport and a timeout other than 0. *)
Definition rearmed (cs : ConnectionState) : ConnectionState :=
  Connection.set__idle_timeout
    (if negb (Connection.closed cs) && negb (_timeout cs =? 0)
     then Some (_timeout cs) else None) cs.

(** Two worlds that differ in their connections only. *)
Definition same_but_connections (w w' : World) : Prop :=
  consumers w' = consumers w ∧ producers w' = producers w
  ∧ cells w' = cells w ∧ trace w' = trace w.

(** [n] calls of [can_reconnect] in a row, with the numbers they return. *)
Fixpoint can_reconnects (n : nat) (self : consumer_id) (max_reconnect : Z)
    (exc : Failure) : M (list Z) :=
  match n with
  | O => ret []
  | S n =>
      r ← ProtocolConsumer.can_reconnect self max_reconnect exc;
      rs ← can_reconnects n self max_reconnect (snd r);
      ret (fst r :: rs)
  end.

(** The numbers [from + 1], ..., [from + n]. *)
Definition attempts (from : Z) (n : nat) : list Z :=
  map (λ i, from + Z.of_nat i) (seq 1 n).

(** The connection that [Connection.__init__] builds, with the events [ev]. *)
Definition new_connection_state (session : Z) (consumer_factory : Factory)
    (producer : option producer_id) (timeout : Z) (ev : gmap string Event)
    : ConnectionState :=
  {| _session := session; _processed := 0; _timeout := timeout;
     _consumer_factory := consumer_factory; _producer := producer;
     _transport := None; _current_consumer := None; _idle_timeout := None;
     connection_events := ev |}.


Module Edge.

(** A producer that has admitted nothing yet. *)
Definition fresh_producer : World :=
  snd (Scenarios.run (ConnectionProducer.__init__ (Some 5) None)).

(** Connection 0, built by its producer and not yet given a transport. *)
Definition pending_connection : World :=
  snd (Scenarios.run (p ← ConnectionProducer.__init__ (Some 5) None;
                      ConnectionProducer.new_connection p (ConsumerClass 1) None)).

(** Connection 0 has been lost while consumer 0 was waiting for more. *)
Definition lost : World :=
  snd (Scenarios.run (Scenarios.server 5 None 1;; Scenarios.feed 0%nat [x41%byte];;
                      Connection.connection_lost 0%nat PyNone)).

(** Consumer 0 holds connection 0 and its [post_request] has been fired. *)
Definition request_done : World :=
  snd (Scenarios.run (Scenarios.server 5 None 1;; Scenarios.feed 0%nat [x41%byte];;
                      EventHandler.fire_event (Consumer_ 0%nat) "post_request" PyNone)).

(** The same socket as [Scenarios.open_transport], wrapped. *)
Definition wrapped_transport : Transport :=
  {| closing := false; sock := 4%nat; rawsock := Some 3%nat |}.

End Edge.

(** [ProtocolConsumer.has_finished]: whether the [finish] event is done. *)
Definition has_finished (self : consumer_id) : M bool :=
  c ← EventHandler.event (Consumer_ self) "finish";
  ret (done c).

(** * Proofs *)

Ltac unfold_M :=
  unfold bind, ret, raise, try_except, log,
    get_consumer, put_consumer, get_connection, put_connection,
    get_producer, put_producer, get_cell, put_cell in *.

Lemma bind_Ret {A B} (m : M A) (k : A → M B) w a w' :
  m w = (Ret a, w') → bind m k w = k a w'.
Proof. unfold bind. by intros ->. Qed.


Lemma events_spec w o ev :
  events_of w o = Some ev → EventHandler.events o w = (Ret ev, w).
Proof.
  destruct o; simpl; unfold_M; intros H; destruct (_ !! _); simplify_eq/=; done.
Qed.

Lemma set_event_spec w o ev name e :
  events_of w o = Some ev →
  EventHandler.set_event o name e w = (Ret tt, with_events o (<[name := e]> ev) w).
Proof.
  destruct o; simpl; unfold_M; intros H; destruct (_ !! _) eqn:Hl; simplify_eq/=.
  - unfold set_consumers. f_equal. f_equal.
    by rewrite (alter_alt_Some _ _ _ _ Hl).
  - unfold set_connections. f_equal. f_equal.
    by rewrite (alter_alt_Some _ _ _ _ Hl).
  - unfold set_producers. f_equal. f_equal.
    by rewrite (alter_alt_Some _ _ _ _ Hl).
Qed.

Lemma events_of_with_events w o ev ev' :
  events_of w o = Some ev → events_of (with_events o ev' w) o = Some ev'.
Proof.
  destruct o; simpl; intros H; rewrite lookup_alter_eq; destruct (_ !! _); simplify_eq/=; done.
Qed.

Lemma with_events_twice w o ev ev' :
  with_events o ev' (with_events o ev w) = with_events o ev' w.
Proof.
  destruct o; simpl; unfold set_consumers, set_connections, set_producers; simpl;
    f_equal; rewrite alter_alter_eq; apply alter_ext; by intros [] ?.
Qed.

Lemma with_events_same w o ev :
  events_of w o = Some ev → with_events o ev w = w.
Proof.
  destruct w; destruct o; simpl;
    unfold set_consumers, set_connections, set_producers; simpl; intros H; f_equal.
  all: apply map_eq; intros j; rewrite lookup_alter.
  all: case_decide; subst; [|done]; destruct (_ !! _) as [[]|]; simplify_eq/=; done.
Qed.

Lemma many_times_ext_refl ev : many_times_ext ev ev.
Proof. intros name. destruct (ev !! name) as [[]|]; eauto. Qed.

Lemma many_times_ext_trans ev1 ev2 ev3 :
  many_times_ext ev1 ev2 → many_times_ext ev2 ev3 → many_times_ext ev1 ev3.
Proof.
  intros H1 H2 name. specialize (H1 name). specialize (H2 name).
  destruct (ev1 !! name) as [[]|].
  - by rewrite H1 in H2.
  - destruct H1 as [hs H1]. by rewrite H1 in H2.
  - by rewrite H1 in H2.
Qed.

Lemma many_times_ext_insert ev name hs hs' :
  ev !! name = Some (ManyTimes hs) → many_times_ext ev (<[name := ManyTimes hs']> ev).
Proof.
  intros H n. destruct (decide (name = n)) as [<-|].
  - rewrite H, lookup_insert_eq. eauto.
  - rewrite lookup_insert_ne by done. destruct (ev !! n) as [[]|]; eauto.
Qed.

Lemma bind_event_many w o ev name hs h :
  events_of w o = Some ev → ev !! name = Some (ManyTimes hs) →
  EventHandler.bind_event o name h w
  = (Ret tt, with_events o (<[name := ManyTimes (hs ++ [h])]> ev) w).
Proof.
  intros Hev Hn. unfold EventHandler.bind_event.
  rewrite (bind_Ret _ _ _ _ _ (events_spec _ _ _ Hev)), Hn.
  by apply set_event_spec.
Qed.

Lemma bind_all_spec o name hs : ∀ w ev hs0,
  events_of w o = Some ev → ev !! name = Some (ManyTimes hs0) →
  EventHandler.bind_all o name hs w
  = (Ret tt, with_events o (<[name := ManyTimes (hs0 ++ hs)]> ev) w).
Proof.
  induction hs as [|h hs IH]; intros w ev hs0 Hev Hn.
  - cbn [EventHandler.bind_all]. rewrite app_nil_r, insert_id by done.
    by rewrite with_events_same.
  - cbn [EventHandler.bind_all].
    rewrite (bind_Ret _ _ _ _ _ (bind_event_many _ _ _ _ _ h Hev Hn)).
    rewrite (IH _ _ (hs0 ++ [h])%list (events_of_with_events _ _ _ _ Hev)) by apply lookup_insert_eq.
    by rewrite with_events_twice, insert_insert_eq, <- app_assoc.
Qed.

Lemma copy_each_spec o l : ∀ w ev,
  events_of w o = Some ev →
  Forall (λ '(name, _), ∃ hs0, ev !! name = Some (ManyTimes hs0)) l →
  ∃ ev', EventHandler.copy_each o l w = (Ret tt, with_events o ev' w)
         ∧ many_times_ext ev ev'.
Proof.
  induction l as [|[name hs] l IH]; intros w ev Hev Hl.
  - exists ev. cbn [EventHandler.copy_each]. rewrite with_events_same by done.
    split; [done | apply many_times_ext_refl].
  - apply Forall_cons in Hl as [Hn Hl']. simpl in Hn. destruct Hn as [hs0 Hn].
    cbn [EventHandler.copy_each].
    rewrite (bind_Ret _ _ _ _ _ (bind_all_spec _ _ hs _ _ _ Hev Hn)).
    destruct (IH (with_events o (<[name:=ManyTimes (hs0 ++ hs)]> ev) w)
                 (<[name:=ManyTimes (hs0 ++ hs)]> ev)) as (ev' & Heq & Hext).
    + by eapply events_of_with_events.
    + eapply Forall_impl; [exact Hl'|]. intros [n ?] [hs1 Hn1].
      destruct (decide (name = n)) as [<-|]; [rewrite lookup_insert_eq | rewrite lookup_insert_ne by done]; eauto.
    + exists ev'. rewrite Heq, with_events_twice. split; [done|].
      eapply many_times_ext_trans; [|exact Hext]. by eapply many_times_ext_insert.
Qed.

Lemma shared_many_times_Forall mine theirs :
  Forall (λ '(name, _), ∃ hs0, mine !! name = Some (ManyTimes hs0))
         (EventHandler.shared_many_times mine theirs).
Proof.
  unfold EventHandler.shared_many_times. apply Forall_forall. intros [name hs] Hin.
  apply list_elem_of_omap in Hin as ([n e] & _ & Hm).
  destruct e; [done|]. destruct (mine !! n) as [[]|] eqn:Hn; simplify_eq. eauto.
Qed.

Lemma copy_many_times_events_spec w o src ev evs :
  events_of w o = Some ev → events_of w src = Some evs →
  ∃ ev', EventHandler.copy_many_times_events o src w = (Ret tt, with_events o ev' w)
         ∧ many_times_ext ev ev'.
Proof.
  intros Hev Hsrc. unfold EventHandler.copy_many_times_events.
  rewrite (bind_Ret _ _ _ _ _ (events_spec _ _ _ Hev)).
  rewrite (bind_Ret _ _ _ _ _ (events_spec _ _ _ Hsrc)).
  apply copy_each_spec; [done | apply shared_many_times_Forall].
Qed.

Lemma connection_init_spec w session f producer timeout :
  let i0 := fresh (dom (cells w)) in
  let i1 := fresh (dom (<[i0 := pending]> (cells w))) in
  let c := fresh (dom (connections w)) in
  Connection.__init__ session f producer timeout w
  = (Ret c,
     set_connections (insert c
       {| _session := session; _processed := 0; _timeout := timeout;
          _consumer_factory := f; _producer := producer;
          _transport := None; _current_consumer := None; _idle_timeout := None;
          connection_events := connection_events0 i0 i1 |})
       (set_cells (insert i1 pending) (set_cells (insert i0 pending) w))).
Proof. reflexivity. Qed.

Lemma fresh_cell_None (m : gmap cell_id Cell) : m !! fresh (dom m) = None.
Proof. apply not_elem_of_dom, is_fresh. Qed.

Lemma fresh_cell_ne (m : gmap cell_id Cell) i c : m !! i = Some c → i ≠ fresh (dom m).
Proof. intros H ->. by rewrite fresh_cell_None in H. Qed.

Lemma new_connection_ok w self s f producer :
  producers w !! self = Some s →
  ¬ (_max_connections s ≠ 0 ∧ _max_connections s ≤ _received s) →
  is_Some (producers w !! default self producer) →
  ∃ conn w', ConnectionProducer.new_connection self f producer w = (Ret conn, w')
    ∧ producers w' = <[self := ConnectionProducer.set__received (_received s + 1) s]> (producers w)
    ∧ connections w !! conn = None
    ∧ ∃ cs, connections w' !! conn = Some cs ∧ _session cs = _received s + 1.
Proof.
  intros Hs Hcap [ps Hps]. unfold ConnectionProducer.new_connection.
  rewrite (bind_Ret _ _ w s w) by (unfold get_producer; by rewrite Hs).
  destruct (negb (_max_connections s =? 0) && (_max_connections s <=? _received s)) eqn:Hc.
  { exfalso. apply Hcap. apply andb_true_iff in Hc as [H1 H2]. split; lia. }
  set (w1 := set_producers (insert self (ConnectionProducer.set__received (_received s + 1) s)) w).
  rewrite (bind_Ret _ _ w tt w1) by done.
  rewrite (bind_Ret _ _ _ _ _ (connection_init_spec w1 _ _ _ _)).
  set (i0 := fresh (dom (cells w1))). set (i1 := fresh (dom (<[i0 := pending]> (cells w1)))).
  set (c := fresh (dom (connections w1))).
  match goal with |- context [set_connections (insert c ?cs0) ?w0] =>
    set (cs := cs0); set (w2 := set_connections (insert c cs) w0) end.
  assert (Hi : i0 ≠ i1).
  { apply (fresh_cell_ne _ _ pending). apply lookup_insert_eq. }
  assert (Hev2 : events_of w2 (Connection_ c) = Some (connection_events0 i0 i1)).
  { simpl. by rewrite lookup_insert_eq. }
  (* bind connection_made *)
  assert (Hb1 : EventHandler.bind_event (Connection_ c) "connection_made" (_add_connection self c) w2
                = (Ret tt, set_cells (insert i0 (EventHandler.add_callback (_add_connection self c) pending)) w2)).
  { unfold EventHandler.bind_event. rewrite (bind_Ret _ _ _ _ _ (events_spec _ _ _ Hev2)).
    replace (connection_events0 i0 i1 !! "connection_made") with (Some (OneTime i0)).
    2:{ unfold connection_events0. by rewrite !lookup_insert_ne, lookup_insert_eq by done. }
    rewrite (bind_Ret _ _ w2 pending w2).
    2:{ unfold get_cell. simpl. by rewrite lookup_insert_ne, lookup_insert_eq by done. }
    done. }
  rewrite (bind_Ret _ _ _ _ _ Hb1).
  match goal with |- context [bind (EventHandler.copy_many_times_events _ _) _ ?w0] => set (w3 := w0) end.
  destruct (copy_many_times_events_spec w3 (Connection_ c) (Producer_ (default self producer))
              (connection_events0 i0 i1) (producer_events (default ps (if decide (self = default self producer) then Some (ConnectionProducer.set__received (_received s + 1) s) else None))))
    as (ev' & Hcopy & Hext).
  { simpl. by rewrite lookup_insert_eq. }
  { simpl. rewrite lookup_insert. case_decide as Hd; [done|]. by rewrite Hps. }
  rewrite (bind_Ret _ _ _ _ _ Hcopy).
  set (w4 := with_events (Connection_ c) ev' w3).
  assert (Hb2 : EventHandler.bind_event (Connection_ c) "connection_lost" (_remove_connection self c) w4
                = (Ret tt, set_cells (insert i1 (EventHandler.add_callback (_remove_connection self c) pending)) w4)).
  { unfold EventHandler.bind_event.
    rewrite (bind_Ret _ _ w4 ev' w4).
    2:{ apply events_spec. simpl. by rewrite lookup_alter_eq, lookup_insert_eq. }
    specialize (Hext "connection_lost"). unfold connection_events0 in Hext at 1.
    rewrite !lookup_insert_ne, lookup_insert_eq in Hext by done. rewrite Hext.
    rewrite (bind_Ret _ _ w4 pending w4).
    2:{ unfold get_cell. simpl. by rewrite lookup_insert_ne, lookup_insert_eq by done. }
    done. }
  rewrite (bind_Ret _ _ _ _ _ Hb2).
  eexists _, _. split; [reflexivity|]. split; [done|]. split.
  - apply not_elem_of_dom, is_fresh.
  - simpl. rewrite lookup_alter_eq, lookup_insert_eq. simpl. eauto.
Qed.

Lemma new_connection_full w self s f producer :
  producers w !! self = Some s →
  _max_connections s ≠ 0 → _max_connections s ≤ _received s →
  ConnectionProducer.new_connection self f producer w
  = (Raise (TooManyConnections "Too many connections"), w).
Proof.
  intros Hs H0 Hle. unfold ConnectionProducer.new_connection.
  rewrite (bind_Ret _ _ w s w) by (unfold get_producer; by rewrite Hs).
  replace (_max_connections s =? 0) with false by lia.
  replace (_max_connections s <=? _received s) with true by lia.
  done.
Qed.

Lemma new_connections_spec n : ∀ w p s f,
  producers w !! p = Some s →
  _received s + Z.of_nat n ≤ _max_connections s →
  ∃ w', new_connections n p f w = (Ret tt, w')
        ∧ producers w' !! p
          = Some (ConnectionProducer.set__received (_received s + Z.of_nat n) s).
Proof.
  induction n as [|n IH]; intros w p s f Hs Hle.
  - exists w. split; [done|]. rewrite Hs. f_equal. destruct s; unfold ConnectionProducer.set__received; simpl.
    f_equal. lia.
  - cbn [new_connections].
    destruct (new_connection_ok w p s f None Hs) as (conn & w1 & Hrun & Hp & _).
    { intros [_ ?]. lia. }
    { simpl. by rewrite Hs. }
    rewrite (bind_Ret _ _ _ _ _ Hrun).
    destruct (IH w1 p (ConnectionProducer.set__received (_received s + 1) s) f) as (w' & Hrun' & Hp').
    { by rewrite Hp, lookup_insert_eq. }
    { simpl. lia. }
    exists w'. split; [done|]. rewrite Hp'. f_equal.
    unfold ConnectionProducer.set__received; simpl. f_equal. lia.
Qed.

Lemma producer_init_spec w timeout max_connections :
  ConnectionProducer.__init__ timeout max_connections w
  = (Ret (fresh (dom (producers w))),
     set_producers (insert (fresh (dom (producers w)))
       {| producer_timeout := default 0 timeout;
          _max_connections := match max_connections with
                              | Some m => if m =? 0 then BIG else m
                              | None => BIG
                              end;
          _received := 0; _concurrent_connections := ∅; producer_events := ∅ |}) w).
Proof. reflexivity. Qed.

Section run_handlers.
Context (via : Via) (data : PyVal).

Lemma run_handler_consumers w h :
  consumers (EventHandler.run_handler via data w h) = consumers w.
Proof. by destruct h. Qed.

Lemma run_handler_connections w h :
  connections (EventHandler.run_handler via data w h) = connections w.
Proof. by destruct h. Qed.

Lemma run_handler_cells w h :
  cells (EventHandler.run_handler via data w h) = cells w.
Proof. by destruct h. Qed.

Lemma run_handler_trace w h :
  trace (EventHandler.run_handler via data w h) = trace w ++ [Call h via data].
Proof. by destruct h. Qed.

Lemma run_handlers_frame hs : ∀ w,
  let w' := foldl (EventHandler.run_handler via data) w hs in
  consumers w' = consumers w ∧ connections w' = connections w
  ∧ cells w' = cells w ∧ trace w' = trace w ++ calls via data hs.
Proof.
  induction hs as [|h hs IH]; intros w; simpl.
  - by rewrite app_nil_r.
  - destruct (IH (EventHandler.run_handler via data w h)) as (-> & -> & -> & ->).
    rewrite run_handler_consumers, run_handler_connections, run_handler_cells,
      run_handler_trace, <- app_assoc. done.
Qed.
End run_handlers.

Lemma fire_event_one_time w o ev name i c data :
  events_of w o = Some ev → ev !! name = Some (OneTime i) → cells w !! i = Some c →
  ∃ w', EventHandler.fire_event o name data w = (Ret (negb (done c)), w')
    ∧ consumers w' = consumers w ∧ connections w' = connections w
    ∧ cells w' = <[i := fired data c]> (cells w)
    ∧ trace w' = trace w ++ Fire o name data :: callbacks_run i c data.
Proof.
  intros Hev Hn Hc. unfold EventHandler.fire_event.
  rewrite (bind_Ret _ _ w tt (add_trace (Fire o name data) w)) by done.
  rewrite (bind_Ret _ _ _ ev _) by (apply events_spec; by destruct o).
  rewrite Hn. rewrite (bind_Ret _ _ _ c _) by (unfold get_cell; simpl; by rewrite Hc).
  unfold fired, callbacks_run. destruct (done c) eqn:Hd.
  - eexists. split; [reflexivity|]. simpl. by rewrite insert_id.
  - unfold bind, put_cell, EventHandler.run_handlers, ret.
    eexists. split; [reflexivity|].
    destruct (run_handlers_frame (OneTimeCell i) data (cell_callbacks c)
                (set_cells (insert i (EventHandler.resolve data c))
                   (add_trace (Fire o name data) w))) as (-> & -> & -> & ->).
    simpl. by rewrite <- app_assoc.
Qed.

Lemma fire_event_many_times w o ev name hs data :
  events_of w o = Some ev → ev !! name = Some (ManyTimes hs) →
  ∃ w', EventHandler.fire_event o name data w = (Ret true, w')
    ∧ consumers w' = consumers w ∧ connections w' = connections w
    ∧ cells w' = cells w
    ∧ trace w' = trace w ++ Fire o name data :: calls (ManyTimesOf o name) data hs.
Proof.
  intros Hev Hn. unfold EventHandler.fire_event.
  rewrite (bind_Ret _ _ w tt (add_trace (Fire o name data) w)) by done.
  rewrite (bind_Ret _ _ _ ev _) by (apply events_spec; by destruct o).
  rewrite Hn. unfold bind, EventHandler.run_handlers, ret.
  eexists. split; [reflexivity|].
  destruct (run_handlers_frame (ManyTimesOf o name) data hs
              (add_trace (Fire o name data) w)) as (-> & -> & -> & ->).
  simpl. by rewrite <- app_assoc.
Qed.







Lemma get_consumer_spec w k s : consumers w !! k = Some s → get_consumer k w = (Ret s, w).
Proof. unfold get_consumer. by intros ->. Qed.
Lemma get_connection_spec w k s : connections w !! k = Some s → get_connection k w = (Ret s, w).
Proof. unfold get_connection. by intros ->. Qed.
Lemma get_cell_spec w k s : cells w !! k = Some s → get_cell k w = (Ret s, w).
Proof. unfold get_cell. by intros ->. Qed.

Lemma consumer_update_spec w k s f :
  consumers w !! k = Some s →
  ProtocolConsumer.update k f w = (Ret tt, set_consumers (insert k (f s)) w).
Proof. intros H. unfold ProtocolConsumer.update. by rewrite (bind_Ret _ _ _ _ _ (get_consumer_spec _ _ _ H)). Qed.

Lemma connection_update_spec w k s f :
  connections w !! k = Some s →
  Connection.update k f w = (Ret tt, set_connections (insert k (f s)) w).
Proof. intros H. unfold Connection.update. by rewrite (bind_Ret _ _ _ _ _ (get_connection_spec _ _ _ H)). Qed.

Lemma finished_spec w self s result i ci j cj :
  consumers w !! self = Some s →
  (∀ c, _connection s = Some c → is_Some (connections w !! c)) →
  consumer_events s !! "finish" = Some (OneTime i) → cells w !! i = Some ci →
  consumer_events s !! "post_request" = Some (OneTime j) → cells w !! j = Some cj →
  i ≠ j →
  ∃ w', ProtocolConsumer.finished self result w = (Ret tt, w')
    ∧ consumers w' = consumers w
    ∧ connections w'
      = match _connection s with
        | Some c => alter (ProtocolConsumer.set__current_consumer None) c (connections w)
        | None => connections w
        end
    ∧ cells w' = <[j := fired result cj]> (<[i := fired result ci]> (cells w))
    ∧ trace w' = trace w ++ Fire (Consumer_ self) "finish" result :: callbacks_run i ci result
                 ++ Fire (Consumer_ self) "post_request" result :: callbacks_run j cj result.
Proof.
  intros Hs Hconn Hi Hci Hj Hcj Hij. unfold ProtocolConsumer.finished.
  rewrite (bind_Ret _ _ _ _ _ (get_consumer_spec _ _ _ Hs)).
  set (conns := match _connection s with
                | Some c => alter (ProtocolConsumer.set__current_consumer None) c (connections w)
                | None => connections w
                end).
  set (w1 := set_connections (λ _, conns) w).
  rewrite (bind_Ret _ _ w tt w1).
  2:{ subst w1 conns. destruct (_connection s) as [c|] eqn:Hc.
      - destruct (Hconn c eq_refl) as [cs Hcs].
        rewrite (bind_Ret _ _ _ _ _ (get_connection_spec _ _ _ Hcs)).
        unfold put_connection, set_connections. by rewrite (alter_alt_Some _ _ _ _ Hcs).
      - by destruct w. }
  destruct (fire_event_one_time w1 (Consumer_ self) (consumer_events s) "finish" i ci result)
    as (w2 & Hf1 & Hk2 & Hc2 & Hcell2 & Ht2); [by simpl; rewrite Hs | done | done |].
  rewrite (bind_Ret _ _ _ _ _ Hf1).
  destruct (fire_event_one_time w2 (Consumer_ self) (consumer_events s) "post_request" j cj result)
    as (w3 & Hf2 & Hk3 & Hc3 & Hcell3 & Ht3).
  { simpl. by rewrite Hk2; simpl; rewrite Hs. }
  { done. }
  { rewrite Hcell2. simpl. by rewrite lookup_insert_ne. }
  rewrite (bind_Ret _ _ _ _ _ Hf2).
  exists w3. split; [done|]. rewrite Hk3, Hk2, Hc3, Hc2, Hcell3, Hcell2, Ht3, Ht2.
  simpl. rewrite <- app_assoc. done.
Qed.

Lemma _data_received_spec (hook : consumer_id → bytes → M (option bytes))
    w self s data hs :
  consumers w !! self = Some s →
  consumer_events s !! "data_received" = Some (ManyTimes hs) →
  ∃ w1,
    consumers w1
    = <[self := ProtocolConsumer.set__reconnect_retries 0
                  (ProtocolConsumer.set__data_received_count (_data_received_count s + 1) s)]>
        (consumers w)
    ∧ connections w1 = connections w ∧ cells w1 = cells w
    ∧ trace w1 = trace w ++ Fire (Consumer_ self) "data_received" (PyBytes data)
                 :: calls (ManyTimesOf (Consumer_ self) "data_received") (PyBytes data) hs
                 ++ [Hook self "data_received" (PyBytes data)]
    ∧ ProtocolConsumer._data_received hook self data w
      = (result ← hook self data;
         EventHandler.fire_event (Consumer_ self) "data_processed" (PyBytes data);;
         ret result) w1.
Proof.
  intros Hs Hn. unfold ProtocolConsumer._data_received.
  rewrite (bind_Ret _ _ _ _ _ (consumer_update_spec _ _ _ _ Hs)).
  match goal with |- context [bind (ProtocolConsumer.update self _) _ ?w0] => set (wa := w0) end.
  rewrite (bind_Ret _ _ _ _ _ (consumer_update_spec wa self _ _ (lookup_insert_eq _ _ _))).
  match goal with |- context [bind (EventHandler.fire_event _ _ _) _ ?w0] => set (wb := w0) end.
  destruct (fire_event_many_times wb (Consumer_ self) (consumer_events s) "data_received" hs (PyBytes data))
    as (wc & Hf & Hk & Hc & Hcell & Ht).
  { subst wb wa. simpl. by rewrite lookup_insert_eq. }
  { done. }
  rewrite (bind_Ret _ _ _ _ _ Hf).
  rewrite (bind_Ret _ _ wc tt (add_trace (Hook self "data_received" (PyBytes data)) wc)) by done.
  eexists. split; [|split; [|split; [|split; [|reflexivity]]]]; simpl.
  - rewrite Hk. subst wb wa. simpl. by rewrite insert_insert_eq.
  - by rewrite Hc.
  - by rewrite Hcell.
  - rewrite Ht. subst wb wa. simpl. rewrite <- app_assoc. done.
Qed.



Lemma set_consumer_events_same s :
  EventHandler.set_consumer_events (consumer_events s) s = s.
Proof. by destruct s. Qed.

Lemma set_consumer_spec w c cs k sk counts :
  connections w !! c = Some cs → _current_consumer cs = None →
  consumers w !! k = Some sk →
  match _upgraded_from sk with
  | Some a => ∃ sa, consumers w !! a = Some sa ∧ default false (_new_connection sa) = counts
  | None => counts = true
  end →
  ∃ ev' w',
    Connection.set_consumer c k w = (Ret tt, w')
    ∧ many_times_ext (consumer_events sk) ev'
    ∧ consumers w'
      = <[k := EventHandler.set_consumer_events ev'
                 (ProtocolConsumer.set__connection (Some c) sk)]> (consumers w)
    ∧ connections w' = <[c := bound k counts cs]> (connections w)
    ∧ cells w' = cells w ∧ trace w' = trace w.
Proof.
  intros Hcs Hcur Hsk Hup. unfold Connection.set_consumer.
  rewrite (bind_Ret _ _ _ _ _ (get_connection_spec _ _ _ Hcs)), Hcur.
  unfold bind at 1. unfold put_connection at 1.
  set (w1 := set_connections (insert c (ProtocolConsumer.set__current_consumer (Some k) cs)) w).
  rewrite (bind_Ret _ _ _ _ _ (consumer_update_spec w1 k sk _ Hsk)).
  set (sk' := ProtocolConsumer.set__connection (Some c) sk).
  set (w2 := set_consumers (insert k sk') w1).
  assert (Hk2 : consumers w2 !! k = Some sk') by (subst w2; simpl; apply lookup_insert_eq).
  rewrite (bind_Ret _ _ _ _ _ (get_consumer_spec _ _ _ Hk2)).
  assert (Hnew : new_connection (_upgraded_from sk') w2 = (Ret counts, w2)).
  { subst sk'. simpl. destruct (_upgraded_from sk) as [a|]; [|by subst].
    destruct Hup as (sa & Hsa & <-). unfold new_connection.
    destruct (decide (a = k)) as [->|Hne].
    - rewrite (bind_Ret _ _ _ _ _ (get_consumer_spec _ _ _ Hk2)). simplify_eq. done.
    - rewrite (bind_Ret _ _ w2 sa w2); [done|]. apply get_consumer_spec.
      subst w2. simpl. by rewrite lookup_insert_ne. }
  rewrite (bind_Ret _ _ _ _ _ Hnew). destruct counts.
  - destruct (copy_many_times_events_spec w2 (Consumer_ k) (Connection_ c)
                (consumer_events sk') (connection_events (ProtocolConsumer.set__current_consumer (Some k) cs)))
      as (ev' & Hcopy & Hext).
    { simpl. by rewrite lookup_insert_eq. }
    { simpl. by rewrite lookup_insert_eq. }
    rewrite (bind_Ret _ _ _ _ _ Hcopy).
    rewrite (connection_update_spec _ c (ProtocolConsumer.set__current_consumer (Some k) cs)).
    2:{ simpl. by rewrite lookup_insert_eq. }
    exists ev'. eexists. split; [reflexivity|]. split; [done|]. simpl.
    rewrite alter_insert_eq, !insert_insert_eq. done.
  - exists (consumer_events sk'). eexists. split; [reflexivity|].
    split; [apply many_times_ext_refl|].
    fold sk'. by rewrite set_consumer_events_same.
Qed.


Lemma many_times_ext_one_time ev ev' name i :
  many_times_ext ev ev' → ev !! name = Some (OneTime i) → ev' !! name = Some (OneTime i).
Proof. intros H Hn. specialize (H name). by rewrite Hn in H. Qed.









Section preserves.
Context (I : World → Prop).

Lemma preserves_ret {A} (a : A) : preserves I (ret a).
Proof. by intros w. Qed.

Lemma preserves_raise {A} e : preserves I (@raise A e).
Proof. by intros w. Qed.

Lemma preserves_bind {A B} (m : M A) (k : A → M B) :
  preserves I m → (∀ a, preserves I (k a)) → preserves I (bind m k).
Proof.
  intros Hm Hk w HI. unfold bind. specialize (Hm w HI).
  destruct (m w) as [[a|e| |] w']; simpl in *; try done. by apply Hk.
Qed.

Lemma preserves_try_except {A} (m : M A) (h : Exn → M A) :
  preserves I m → (∀ e, preserves I (h e)) → preserves I (try_except m h).
Proof.
  intros Hm Hh w HI. unfold try_except. specialize (Hm w HI).
  destruct (m w) as [[a|e| |] w']; simpl in *; try done. by apply Hh.
Qed.

Lemma preserves_get_consumer k : preserves I (get_consumer k).
Proof. intros w HI. unfold get_consumer. by destruct (_ !! _). Qed.

Lemma preserves_get_connection k : preserves I (get_connection k).
Proof. intros w HI. unfold get_connection. by destruct (_ !! _). Qed.

Lemma preserves_get_producer k : preserves I (get_producer k).
Proof. intros w HI. unfold get_producer. by destruct (_ !! _). Qed.

Lemma preserves_get_cell k : preserves I (get_cell k).
Proof. intros w HI. unfold get_cell. by destruct (_ !! _). Qed.

Lemma preserves_stop {A} (o : World → Outcome A) : preserves I (λ w, (o w, w)).
Proof. by intros w. Qed.
End preserves.

Lemma timer_inv_same w w' : connections w' = connections w → timer_inv w → timer_inv w'.
Proof. intros Heq HI c cs. rewrite Heq. apply HI. Qed.

Lemma timer_inv_insert w c s :
  timer_inv w → timer_ok s → timer_inv (set_connections (insert c s) w).
Proof.
  intros HI Hs c' cs'. simpl. destruct (decide (c = c')) as [<-|].
  - rewrite lookup_insert_eq. by intros [= <-].
  - rewrite lookup_insert_ne by done. apply HI.
Qed.

Lemma preserves_frame {A} (m : M A) :
  (∀ w, connections (snd (m w)) = connections w) → preserves timer_inv m.
Proof. intros H w HI. eapply timer_inv_same; [apply H | exact HI]. Qed.

Lemma preserves_log e : preserves timer_inv (log e).
Proof. by apply preserves_frame. Qed.
Lemma preserves_put_consumer k s : preserves timer_inv (put_consumer k s).
Proof. by apply preserves_frame. Qed.
Lemma preserves_put_producer k s : preserves timer_inv (put_producer k s).
Proof. by apply preserves_frame. Qed.
Lemma preserves_put_cell k s : preserves timer_inv (put_cell k s).
Proof. by apply preserves_frame. Qed.
Lemma preserves_new_cell : preserves timer_inv new_cell.
Proof. by apply preserves_frame. Qed.

(** Reading a connection and going on knowing what was read. *)
Lemma preserves_reading {B} c (k : ConnectionState → M B) :
  (∀ w s, timer_inv w → connections w !! c = Some s → timer_ok s →
          timer_inv (snd (k s w))) →
  preserves timer_inv (bind (get_connection c) k).
Proof.
  intros Hk w HI. unfold bind, get_connection.
  destruct (connections w !! c) as [s|] eqn:Hs; [|done]. apply Hk; eauto.
Qed.

Lemma preserves_modify c (f : ConnectionState → ConnectionState) :
  (∀ s, timer_ok s → timer_ok (f s)) →
  preserves timer_inv (bind (get_connection c) (λ s, put_connection c (f s))).
Proof.
  intros Hf. apply preserves_reading. intros w s HI Hs Hok.
  apply timer_inv_insert; auto.
Qed.

Lemma preserves_connection_update c f :
  (∀ s, timer_ok s → timer_ok (f s)) → preserves timer_inv (Connection.update c f).
Proof. apply preserves_modify. Qed.

Lemma preserves_consumer_update k f : preserves timer_inv (ProtocolConsumer.update k f).
Proof.
  apply preserves_bind; [apply preserves_get_consumer|]. intros s. apply preserves_put_consumer.
Qed.

Ltac keep :=
  repeat match goal with
    | |- preserves _ (ret _) => apply preserves_ret
    | |- preserves _ (raise _) => apply preserves_raise
    | |- preserves _ (λ w, (@?o w, w)) => apply (preserves_stop _ o)
    | |- preserves _ (log _) => apply preserves_log
    | |- preserves _ (put_consumer _ _) => apply preserves_put_consumer
    | |- preserves _ (put_producer _ _) => apply preserves_put_producer
    | |- preserves _ (put_cell _ _) => apply preserves_put_cell
    | |- preserves _ new_cell => apply preserves_new_cell
    | |- preserves _ (get_consumer _) => apply preserves_get_consumer
    | |- preserves _ (get_connection _) => apply preserves_get_connection
    | |- preserves _ (get_producer _) => apply preserves_get_producer
    | |- preserves _ (get_cell _) => apply preserves_get_cell
    | |- preserves _ (ProtocolConsumer.update _ _) => apply preserves_consumer_update
    | |- preserves _ (bind (get_connection ?c) (λ s, put_connection ?c _)) =>
        apply preserves_modify; unfold timer_ok; simpl; tauto
    | |- preserves _ (Connection.update _ _) =>
        apply preserves_connection_update; unfold timer_ok; simpl; tauto
    | |- preserves _ (bind _ _) => apply preserves_bind; [|intros ?]
    | |- preserves _ (try_except _ _) => apply preserves_try_except; [|intros ?]
    | |- preserves _ (match ?x with _ => _ end) => destruct x
    | |- preserves _ _ => assumption
    end.

Lemma preserves_events o : preserves timer_inv (EventHandler.events o).
Proof. destruct o; simpl; keep. Qed.

Lemma preserves_set_event o name e : preserves timer_inv (EventHandler.set_event o name e).
Proof. destruct o; simpl; keep. Qed.

Lemma preserves_run_handlers via hs data :
  preserves timer_inv (EventHandler.run_handlers via hs data).
Proof.
  apply preserves_frame. intros w. unfold EventHandler.run_handlers. simpl.
  by destruct (run_handlers_frame via data hs w) as (_ & -> & _).
Qed.

Lemma preserves_fire_event o name data :
  preserves timer_inv (EventHandler.fire_event o name data).
Proof.
  unfold EventHandler.fire_event.
  keep; auto using preserves_events, preserves_run_handlers.
Qed.

Lemma preserves_bind_event o name h : preserves timer_inv (EventHandler.bind_event o name h).
Proof.
  unfold EventHandler.bind_event.
  keep; auto using preserves_events, preserves_run_handlers, preserves_set_event.
Qed.

Lemma preserves_event o name : preserves timer_inv (EventHandler.event o name).
Proof. unfold EventHandler.event. keep; auto using preserves_events. Qed.

Lemma preserves_pop_event o name : preserves timer_inv (EventHandler.pop_event o name).
Proof.
  unfold EventHandler.pop_event. keep; auto using preserves_events, preserves_set_event.
Qed.

Lemma preserves_bind_all o name hs : preserves timer_inv (EventHandler.bind_all o name hs).
Proof.
  induction hs as [|h hs IH]; cbn [EventHandler.bind_all]; keep.
  apply preserves_bind_event.
Qed.

Lemma preserves_copy_each o l : preserves timer_inv (EventHandler.copy_each o l).
Proof.
  induction l as [|[name hs] l IH]; cbn [EventHandler.copy_each]; keep.
  apply preserves_bind_all.
Qed.

Lemma preserves_copy_many_times_events o src :
  preserves timer_inv (EventHandler.copy_many_times_events o src).
Proof.
  unfold EventHandler.copy_many_times_events.
  keep; auto using preserves_events, preserves_copy_each.
Qed.

Lemma preserves_one_time_events names : ∀ ev,
  preserves timer_inv (EventHandler.one_time_events names ev).
Proof.
  induction names as [|name names IH]; intros ev; cbn [EventHandler.one_time_events]; keep.
  apply IH.
Qed.

Lemma preserves_event_handler_init one many :
  preserves timer_inv (EventHandler.__init__ one many).
Proof. unfold EventHandler.__init__. keep. apply preserves_one_time_events. Qed.

Lemma preserves_put_connection c s :
  timer_ok s → preserves timer_inv (put_connection c s).
Proof. intros Hs w HI. by apply timer_inv_insert. Qed.

Lemma preserves_close c async exc : preserves timer_inv (Connection.close c async exc).
Proof.
  unfold Connection.close. apply preserves_reading. intros w s HI Hs Hok.
  destruct (_transport s) as [t|] eqn:Ht; [|done].
  apply timer_inv_insert; [done|]. unfold timer_ok in *. simpl. intros Hi.
  destruct (Hok Hi) as [_ ?]. eauto.
Qed.

Lemma preserves_abort c exc : preserves timer_inv (Connection.abort c exc).
Proof.
  unfold Connection.abort. apply preserves_reading. intros w s HI Hs Hok.
  destruct (_transport s) as [t|] eqn:Ht; [|done].
  apply timer_inv_insert; [done|]. unfold timer_ok in *. simpl. intros Hi.
  destruct (Hok Hi) as [_ ?]. eauto.
Qed.

Lemma preserves__timed_out c : preserves timer_inv (Connection._timed_out c).
Proof. apply preserves_close. Qed.

Lemma preserves__add_idle_timeout c : preserves timer_inv (Connection._add_idle_timeout c).
Proof.
  unfold Connection._add_idle_timeout. apply preserves_reading. intros w s HI Hs Hok.
  destruct (negb (Connection.closed s)) eqn:Hclosed; [|done].
  destruct (negb (bool_decide (is_Some (_idle_timeout s)))); [|done].
  destruct (_timeout s =? 0) eqn:Ht; [done|]. simpl.
  apply timer_inv_insert; [done|]. unfold timer_ok. simpl. intros _.
  unfold Connection.closed in Hclosed. destruct (_transport s); [|done].
  split; [eauto | lia].
Qed.

Lemma preserves__cancel_timeout c : preserves timer_inv (Connection._cancel_timeout c).
Proof.
  unfold Connection._cancel_timeout. apply preserves_reading. intros w s HI Hs Hok.
  destruct (_idle_timeout s); [|done].
  apply timer_inv_insert; [done|]. unfold timer_ok. simpl. by intros [? [=]].
Qed.

(** After [_cancel_timeout] no timer is armed on the connection. *)
Lemma _cancel_timeout_disarms c w :
  ∀ s, connections (snd (Connection._cancel_timeout c w)) !! c = Some s →
       fst (Connection._cancel_timeout c w) = Ret tt ∧ _idle_timeout s = None.
Proof.
  intros s. unfold Connection._cancel_timeout, bind, get_connection.
  destruct (connections w !! c) as [s0|] eqn:Hs0; simpl; [|by rewrite Hs0].
  destruct (_idle_timeout s0) eqn:Hi; simpl.
  - rewrite lookup_insert_eq. by intros [= <-].
  - rewrite Hs0. by intros [= <-].
Qed.

Lemma preserves_set_timeout c timeout : preserves timer_inv (Connection.set_timeout c timeout).
Proof.
  intros w HI. unfold Connection.set_timeout. unfold bind at 1.
  pose proof (preserves__cancel_timeout c w HI) as HI1.
  pose proof (_cancel_timeout_disarms c w) as Hdis.
  destruct (Connection._cancel_timeout c w) as [[[]|e| |] w1]; simpl in *; try done.
  unfold bind at 1. unfold Connection.update, bind, get_connection.
  destruct (connections w1 !! c) as [s|] eqn:Hs; simpl; [|done].
  destruct (Hdis s eq_refl) as [_ Hidle].
  apply preserves__add_idle_timeout. apply timer_inv_insert; [done|].
  unfold timer_ok. simpl. rewrite Hidle. by intros [? [=]].
Qed.

Lemma preserves_new_connection_test up : preserves timer_inv (new_connection up).
Proof. unfold new_connection. keep. Qed.

Lemma preserves_set_consumer c k : preserves timer_inv (Connection.set_consumer c k).
Proof.
  unfold Connection.set_consumer. apply preserves_reading. intros w s HI Hs Hok.
  destruct (_current_consumer s); [done|].
  unfold bind at 1. unfold put_connection at 1.
  match goal with |- timer_inv (snd (?m ?w1)) => enough (preserves timer_inv m) as Hm end.
  { apply Hm. by apply timer_inv_insert. }
  keep; auto using preserves_new_connection_test, preserves_copy_many_times_events.
Qed.

Lemma preserves_connection_made c transport :
  preserves timer_inv (Connection.connection_made c transport).
Proof.
  unfold Connection.connection_made. apply preserves_reading. intros w s HI Hs Hok.
  unfold bind at 1. unfold put_connection at 1.
  match goal with |- timer_inv (snd (?m ?w1)) => enough (preserves timer_inv m) as Hm end.
  { apply Hm. apply timer_inv_insert; [done|]. unfold timer_ok in *. simpl. intros Hi.
    destruct (Hok Hi). eauto. }
  keep; auto using preserves__cancel_timeout, preserves__add_idle_timeout,
    preserves_fire_event.
Qed.

Lemma preserves_connection_init session f producer timeout :
  preserves timer_inv (Connection.__init__ session f producer timeout).
Proof.
  unfold Connection.__init__. keep.
  - apply preserves_event_handler_init.
  - apply preserves_put_connection. unfold timer_ok. simpl. by intros [? [=]].
Qed.

Lemma preserves_finished k result : preserves timer_inv (ProtocolConsumer.finished k result).
Proof. unfold ProtocolConsumer.finished. keep; apply preserves_fire_event. Qed.

Lemma preserves_consumer_connection_lost k exc :
  preserves timer_inv (ProtocolConsumer.connection_lost k exc).
Proof. unfold ProtocolConsumer.connection_lost. keep. apply preserves_finished. Qed.

Lemma preserves_consumer_init cls connection :
  preserves timer_inv (ProtocolConsumer.__init__ Connection.set_consumer cls connection).
Proof.
  unfold ProtocolConsumer.__init__. keep.
  - apply preserves_event_handler_init.
  - apply preserves_set_consumer.
Qed.

Lemma preserves_call f : ∀ connection, preserves timer_inv (Connection.call f connection).
Proof.
  induction f as [cls | self f IH old post]; intros connection; cbn [Connection.call].
  - apply preserves_consumer_init.
  - unfold Connection._upgrade. keep; auto using preserves_set_event, preserves_set_consumer.
Qed.

Lemma preserves_build_consumer c : preserves timer_inv (build_consumer c).
Proof. unfold build_consumer. keep. apply preserves_call. Qed.

Lemma preserves_upgrade c fopt nc : preserves timer_inv (Connection.upgrade c fopt nc).
Proof.
  unfold Connection.upgrade. keep; auto using preserves_event, preserves_pop_event.
Qed.

Lemma preserves_connection_lost c exc : preserves timer_inv (Connection.connection_lost c exc).
Proof.
  unfold Connection.connection_lost.
  keep; auto using preserves_fire_event, preserves__cancel_timeout,
    preserves_consumer_connection_lost.
Qed.

Lemma preserves_new_connection p f producer :
  preserves timer_inv (ConnectionProducer.new_connection p f producer).
Proof.
  unfold ConnectionProducer.new_connection.
  keep; auto using preserves_connection_init, preserves_bind_event,
    preserves_copy_many_times_events.
Qed.

Section hooks.
Variable consumer_data_received : consumer_id → bytes → M (option bytes).
Variable start_request : consumer_id → M unit.
Hypothesis data_received_keeps :
  ∀ k data, preserves timer_inv (consumer_data_received k data).
Hypothesis start_request_keeps : ∀ k, preserves timer_inv (start_request k).

Lemma preserves_start k request :
  preserves timer_inv (ProtocolConsumer.start start_request k request).
Proof.
  unfold ProtocolConsumer.start.
  keep; auto using preserves_fire_event, preserves_finished.
Qed.

Lemma preserves__data_received k data :
  preserves timer_inv (ProtocolConsumer._data_received consumer_data_received k data).
Proof.
  unfold ProtocolConsumer._data_received. keep; auto using preserves_fire_event.
Qed.

Lemma preserves_consumer_for c :
  preserves timer_inv (Connection.consumer_for start_request c).
Proof.
  unfold Connection.consumer_for. keep; auto using preserves_call, preserves_start.
Qed.

Lemma preserves_data_received_turn c data :
  preserves timer_inv
    (Connection.data_received_turn consumer_data_received start_request c data).
Proof.
  unfold Connection.data_received_turn.
  keep; auto using preserves_consumer_for, preserves__data_received.
Qed.

Lemma preserves_data_received_loop fuel : ∀ c data,
  preserves timer_inv
    (Connection.data_received_loop consumer_data_received start_request fuel c data).
Proof.
  induction fuel as [|fuel IH]; intros c data; destruct data as [|b data];
    cbn [Connection.data_received_loop]; keep;
    auto using preserves_data_received_turn.
Qed.

Lemma preserves_data_received fuel c data :
  preserves timer_inv
    (Connection.data_received consumer_data_received start_request fuel c data).
Proof.
  unfold Connection.data_received.
  keep; auto using preserves__cancel_timeout, preserves_data_received_loop,
    preserves__add_idle_timeout.
Qed.

Lemma preserves_perform op :
  preserves timer_inv (perform consumer_data_received start_request op).
Proof.
  destruct op; cbn [perform]; keep;
    auto using preserves_set_timeout, preserves_set_consumer, preserves_connection_made,
      preserves_data_received, preserves_connection_lost, preserves_upgrade,
      preserves_close, preserves_abort, preserves__timed_out, preserves_build_consumer,
      preserves_start, preserves_finished,
      preserves_consumer_connection_lost, preserves_new_connection,
      preserves_bind_event, preserves_fire_event.
Qed.
End hooks.

Lemma preserves_by_class k data : preserves timer_inv (Scenarios.by_class k data).
Proof.
  unfold Scenarios.by_class. apply preserves_bind; [apply preserves_get_consumer|].
  intros s. destruct (consumer_class s) as [|[|n]].
  - unfold Scenarios.one_byte. keep. apply preserves_finished.
  - unfold Scenarios.hungry. keep.
  - unfold Scenarios.greedy. keep.
Qed.

Lemma preserves_no_request k : preserves timer_inv (Scenarios.no_request k).
Proof. unfold Scenarios.no_request. keep. Qed.

Lemma connections_idle :
  connections Scenarios.idle = {[0%nat := Scenarios.connection_of Scenarios.idle 0%nat]}.
Proof. vm_compute. reflexivity. Qed.

Lemma timer_mutex_idle : timer_mutex Scenarios.idle.
Proof.
  intros c cs Hc _. rewrite connections_idle in Hc.
  apply lookup_singleton_Some in Hc as [<- <-].
  vm_compute. repeat split; reflexivity.
Qed.

Lemma timer_inv_idle : timer_inv Scenarios.idle.
Proof.
  intros c cs Hc _. rewrite connections_idle in Hc.
  apply lookup_singleton_Some in Hc as [<- <-].
  vm_compute. split; [eauto | discriminate].
Qed.

(** ** The scenarios of the specification, by evaluation *)

(** Serial requests: the bytes [AB] retire two consumers. *)
Example serial_requests :
  let w := snd (Scenarios.feed 0%nat [x41%byte; x42%byte] Scenarios.accepting) in
  _processed (Scenarios.connection_of w 0%nat) = 2
  ∧ _current_consumer (Scenarios.connection_of w 0%nat) = None
  ∧ size (consumers w) = 2%nat.
Proof. vm_compute. repeat split; reflexivity. Qed.

(** A consumer that hands back [X] without retiring. *)
Example residual_without_retiring :
  fst (Scenarios.run
         (Scenarios.server 0 None 2;; Scenarios.feed 0%nat [x41%byte]))
  = Raise (ProtocolError "current consumer not done.").
Proof. vm_compute. reflexivity. Qed.

(** The cap: the third connection of a producer with [max_connections = 2]. *)
Example third_connection_refused :
  let r := Scenarios.run
             (p ← ConnectionProducer.__init__ None (Some 2);
              new_connections 3 p (ConsumerClass 0);;
              get_producer p) in
  fst r = Raise (TooManyConnections "Too many connections")
  ∧ _received <$> producers (snd r) !! 0%nat = Some 2.
Proof. vm_compute. repeat split; reflexivity. Qed.

(** The upgrade: observer 9 of the [post_request] of consumer 0 is called
    once, when the consumer built after the upgrade retires on the byte [B]. *)
Example upgrade_scenario :
  let w := snd ((Connection.upgrade 0%nat (Some (ConsumerClass 0)) false;;
                 ProtocolConsumer.finished 0%nat (PyObj 1);;
                 Scenarios.feed 0%nat [x42%byte]) Scenarios.observed) in
  invocations 4%nat (trace w) = [(Observer 9, PyBytes [x42%byte])]
  ∧ _processed (Scenarios.connection_of w 0%nat) = 1.
Proof. vm_compute. repeat split; reflexivity. Qed.

(** A stale kept-alive connection: one retry, and the failure is not logged. *)
Example stale_retry :
  fst (ProtocolConsumer.can_reconnect 2%nat 0 {| logged := false; log_calls := 0 |}
         Scenarios.kept_alive)
  = Ret (1, {| logged := true; log_calls := 0 |}).
Proof. vm_compute. reflexivity. Qed.

(** ** Further lemmas *)

(** The consumer object that [ProtocolConsumer.__init__] allocates, before it
    is handed to [set_consumer]. *)
Lemma consumer_init_with_connection w cls c :
  let i0 := fresh (dom (cells w)) in
  let i1 := fresh (dom (<[i0 := pending]> (cells w))) in
  let i2 := fresh (dom (<[i1 := pending]> (<[i0 := pending]> (cells w)))) in
  let k := fresh (dom (consumers w)) in
  ProtocolConsumer.__init__ Connection.set_consumer cls (Some c) w
  = (Connection.set_consumer c k;; ret k)
      (set_consumers (insert k
         {| consumer_class := cls; _connection := None; _request := PyNone;
            _data_received_count := 0; _reconnect_retries := 0;
            _upgraded_from := None; _new_connection := None;
            consumer_events := consumer_events0 i0 i1 i2 |})
         (set_cells (insert i2 pending)
            (set_cells (insert i1 pending) (set_cells (insert i0 pending) w)))).
Proof. reflexivity. Qed.

Lemma fresh_cells_distinct (m : gmap cell_id Cell) :
  let i0 := fresh (dom m) in
  let i1 := fresh (dom (<[i0 := pending]> m)) in
  let i2 := fresh (dom (<[i1 := pending]> (<[i0 := pending]> m))) in
  m !! i0 = None ∧ m !! i1 = None ∧ m !! i2 = None ∧ i0 ≠ i1 ∧ i0 ≠ i2 ∧ i1 ≠ i2.
Proof.
  intros i0 i1 i2.
  assert (H0 : m !! i0 = None) by apply fresh_cell_None.
  assert (H1 : <[i0 := pending]> m !! i1 = None) by apply fresh_cell_None.
  assert (H2 : <[i1 := pending]> (<[i0 := pending]> m) !! i2 = None)
    by apply fresh_cell_None.
  apply lookup_insert_None in H1 as [H1 H10].
  apply lookup_insert_None in H2 as [H2 H21].
  apply lookup_insert_None in H2 as [H2 H20].
  repeat split; done.
Qed.

Lemma consumer_init_bound (w : World) (cls : nat) (c : conn_id) (cs : ConnectionState) :
  connections w !! c = Some cs → _current_consumer cs = None →
  ∃ k sk w',
    ProtocolConsumer.__init__ Connection.set_consumer cls (Some c) w = (Ret k, w')
    ∧ consumers w !! k = None
    ∧ consumers w' = <[k := sk]> (consumers w)
    ∧ _connection sk = Some c ∧ _request sk = PyNone
    ∧ _data_received_count sk = 0 ∧ _reconnect_retries sk = 0
    ∧ _upgraded_from sk = None
    ∧ (∀ name, name ∈ ProtocolConsumer.ONE_TIME_EVENTS →
         ∃ i, consumer_events sk !! name = Some (OneTime i)
              ∧ cells w !! i = None ∧ cells w' !! i = Some pending)
    ∧ connections w' = <[c := bound k true cs]> (connections w)
    ∧ trace w' = trace w.
Proof.
  intros Hcs Hcur. rewrite consumer_init_with_connection.
  set (i0 := fresh (dom (cells w))).
  set (i1 := fresh (dom (<[i0 := pending]> (cells w)))).
  set (i2 := fresh (dom (<[i1 := pending]> (<[i0 := pending]> (cells w))))).
  set (k := fresh (dom (consumers w))).
  destruct (fresh_cells_distinct (cells w)) as (H0 & H1 & H2 & H01 & H02 & H12).
  fold i0 i1 i2 in H0, H1, H2, H01, H02, H12.
  match goal with |- context [set_consumers (insert k ?s0) ?w0] =>
    set (sk := s0); set (wa := set_consumers (insert k sk) w0) end.
  destruct (set_consumer_spec wa c cs k sk true) as (ev' & w' & Hset & Hext & Hk & Hc & Hcell & Ht).
  { done. }
  { done. }
  { subst wa. simpl. apply lookup_insert_eq. }
  { done. }
  rewrite (bind_Ret _ _ _ _ _ Hset).
  eexists k, _, w'. split; [reflexivity|].
  split; [apply not_elem_of_dom, is_fresh|].
  split. { rewrite Hk. subst wa. simpl. by rewrite insert_insert_eq. }
  simpl. repeat (split; [done|]).
  split.
  { intros name Hname. unfold ProtocolConsumer.ONE_TIME_EVENTS in Hname.
    rewrite Hcell. subst wa. simpl.
    apply elem_of_cons in Hname as [->|Hname]; [|apply elem_of_cons in Hname as [->|Hname];
      [|apply elem_of_cons in Hname as [->|Hname]; [|by apply elem_of_nil in Hname]]].
    - exists i0. split; [|split; [done|]].
      + eapply many_times_ext_one_time; [exact Hext|]. subst sk. simpl. unfold consumer_events0.
        by rewrite !lookup_insert_ne, lookup_insert_eq by done.
      + by rewrite !lookup_insert_ne, lookup_insert_eq by done.
    - exists i1. split; [|split; [done|]].
      + eapply many_times_ext_one_time; [exact Hext|]. subst sk. simpl. unfold consumer_events0.
        by rewrite !lookup_insert_ne, lookup_insert_eq by done.
      + by rewrite !lookup_insert_ne, lookup_insert_eq by done.
    - exists i2. split; [|split; [done|]].
      + eapply many_times_ext_one_time; [exact Hext|]. subst sk. simpl. unfold consumer_events0.
        by rewrite !lookup_insert_ne, lookup_insert_eq by done.
      + by rewrite lookup_insert_eq. }
  split; [|by rewrite Ht].
  rewrite Hc. subst wa. simpl. done.
Qed.

Lemma set__idle_timeout_same cs :
  Connection.set__idle_timeout (_idle_timeout cs) cs = cs.
Proof. by destruct cs. Qed.

Lemma _cancel_timeout_spec w c cs :
  connections w !! c = Some cs →
  ∃ w', Connection._cancel_timeout c w = (Ret tt, w')
        ∧ connections w' = <[c := Connection.set__idle_timeout None cs]> (connections w)
        ∧ same_but_connections w w'.
Proof.
  intros Hcs. unfold Connection._cancel_timeout.
  rewrite (bind_Ret _ _ _ _ _ (get_connection_spec _ _ _ Hcs)).
  destruct (_idle_timeout cs) eqn:Hi.
  - eexists. split; [reflexivity|]. by split.
  - exists w. split; [done|]. split; [|by split].
    rewrite <- Hi, set__idle_timeout_same. by rewrite insert_id.
Qed.

Lemma _add_idle_timeout_spec w c cs :
  connections w !! c = Some cs → _idle_timeout cs = None →
  ∃ w', Connection._add_idle_timeout c w = (Ret tt, w')
        ∧ connections w' = <[c := rearmed cs]> (connections w)
        ∧ same_but_connections w w'.
Proof.
  intros Hcs Hi. unfold Connection._add_idle_timeout.
  rewrite (bind_Ret _ _ _ _ _ (get_connection_spec _ _ _ Hcs)).
  unfold rearmed. rewrite Hi. simpl. rewrite andb_true_r.
  destruct (negb (Connection.closed cs) && negb (_timeout cs =? 0)) eqn:Hcond.
  - eexists. split; [reflexivity|]. by split.
  - exists w. split; [done|]. split; [|by split].
    rewrite <- Hi, set__idle_timeout_same. by rewrite insert_id.
Qed.

Lemma rearm_spec w c cs :
  connections w !! c = Some cs →
  ∃ w', (Connection._cancel_timeout c;; Connection._add_idle_timeout c) w = (Ret tt, w')
        ∧ connections w' = <[c := rearmed cs]> (connections w)
        ∧ same_but_connections w w'.
Proof.
  intros Hcs.
  destruct (_cancel_timeout_spec w c cs Hcs) as (w1 & Hcancel & Hc1 & Hk1 & Hp1 & Hcell1 & Ht1).
  rewrite (bind_Ret _ _ _ _ _ Hcancel).
  destruct (_add_idle_timeout_spec w1 c (Connection.set__idle_timeout None cs))
    as (w2 & Hadd & Hc2 & Hk2 & Hp2 & Hcell2 & Ht2).
  { rewrite Hc1. apply lookup_insert_eq. }
  { done. }
  exists w2. split; [done|]. split.
  - rewrite Hc2, Hc1, insert_insert_eq. done.
  - unfold same_but_connections. by rewrite Hk2, Hp2, Hcell2, Ht2.
Qed.

Lemma fire_event_one_time_producers w o ev name i c data :
  events_of w o = Some ev → ev !! name = Some (OneTime i) → cells w !! i = Some c →
  done c = true →
  producers (snd (EventHandler.fire_event o name data w)) = producers w.
Proof.
  intros Hev Hn Hc Hd. unfold EventHandler.fire_event.
  rewrite (bind_Ret _ _ w tt (add_trace (Fire o name data) w)) by done.
  rewrite (bind_Ret _ _ _ ev _) by (apply events_spec; by destruct o).
  rewrite Hn. rewrite (bind_Ret _ _ _ c _) by (unfold get_cell; simpl; by rewrite Hc).
  by rewrite Hd.
Qed.

Lemma done_fired data c : done (fired data c) = true.
Proof. unfold fired. destruct (done c) eqn:Hd; [done|]. reflexivity. Qed.

Lemma fired_fired data data' c : fired data' (fired data c) = fired data c.
Proof. unfold fired at 1. by rewrite done_fired. Qed.

Lemma callbacks_run_fired i data data' c : callbacks_run i (fired data c) data' = [].
Proof. unfold callbacks_run. by rewrite done_fired. Qed.

Lemma attempts_cons from n : attempts from (S n) = (from + 1) :: attempts (from + 1) n.
Proof.
  unfold attempts. cbn [seq map]. f_equal.
  rewrite <- seq_shift, map_map. apply map_ext. intros i. lia.
Qed.

Lemma can_reconnect_step w self s max_reconnect exc :
  consumers w !! self = Some s →
  (∀ conn, _connection s = Some conn → is_Some (connections w !! conn)) →
  ¬ stale w s → _reconnect_retries s < max_reconnect →
  ProtocolConsumer.can_reconnect self max_reconnect exc w
  = (Ret (_reconnect_retries s + 1,
          {| logged := logged exc; log_calls := S (log_calls exc) |}),
     set_consumers
       (insert self (ProtocolConsumer.set__reconnect_retries (_reconnect_retries s + 1) s))
       w).
Proof.
  intros Hs Hconn Hstale Hlt. unfold ProtocolConsumer.can_reconnect.
  rewrite (bind_Ret _ _ _ _ _ (get_consumer_spec _ _ _ Hs)).
  assert (Hno : (match _connection s with
                 | Some conn =>
                     cs ← get_connection conn;
                     ret ((_data_received_count s =? 0) && (1 <? _processed cs))
                 | None => ret false
                 end) w = (Ret false, w)).
  { destruct (_connection s) as [conn|] eqn:Hc; [|done].
    destruct (Hconn conn eq_refl) as [cs Hcs].
    rewrite (bind_Ret _ _ _ _ _ (get_connection_spec _ _ _ Hcs)).
    destruct ((_data_received_count s =? 0) && (1 <? _processed cs)) eqn:Hb; [|done].
    exfalso. apply Hstale. apply andb_true_iff in Hb as [H1 H2].
    exists conn, cs. repeat split; try done; lia. }
  rewrite (bind_Ret _ _ _ _ _ Hno).
  replace (_reconnect_retries s <? max_reconnect) with true by lia.
  done.
Qed.


Lemma new_connection_built w self s f producer :
  producers w !! self = Some s →
  ¬ (_max_connections s ≠ 0 ∧ _max_connections s ≤ _received s) →
  is_Some (producers w !! default self producer) →
  ∃ conn i0 i1 ev w',
    ConnectionProducer.new_connection self f producer w = (Ret conn, w')
    ∧ producers w' = <[self := ConnectionProducer.set__received (_received s + 1) s]> (producers w)
    ∧ connections w !! conn = None
    ∧ connections w'
      = <[conn := new_connection_state (_received s + 1) f (Some (default self producer))
                    (producer_timeout s) ev]> (connections w)
    ∧ ev !! "connection_made" = Some (OneTime i0)
    ∧ ev !! "connection_lost" = Some (OneTime i1)
    ∧ i0 ≠ i1 ∧ cells w !! i0 = None ∧ cells w !! i1 = None
    ∧ cells w'
      = <[i1 := EventHandler.add_callback (_remove_connection self conn) pending]>
          (<[i0 := EventHandler.add_callback (_add_connection self conn) pending]> (cells w))
    ∧ consumers w' = consumers w ∧ trace w' = trace w.
Proof.
  intros Hs Hcap [ps Hps]. unfold ConnectionProducer.new_connection.
  rewrite (bind_Ret _ _ w s w) by (unfold get_producer; by rewrite Hs).
  destruct (negb (_max_connections s =? 0) && (_max_connections s <=? _received s)) eqn:Hc.
  { exfalso. apply Hcap. apply andb_true_iff in Hc as [H1 H2]. split; lia. }
  set (w1 := set_producers (insert self (ConnectionProducer.set__received (_received s + 1) s)) w).
  rewrite (bind_Ret _ _ w tt w1) by done.
  rewrite (bind_Ret _ _ _ _ _ (connection_init_spec w1 _ _ _ _)).
  set (i0 := fresh (dom (cells w1))). set (i1 := fresh (dom (<[i0 := pending]> (cells w1)))).
  set (c := fresh (dom (connections w1))).
  match goal with |- context [set_connections (insert c ?cs0) ?w0] =>
    set (cs := cs0); set (w2 := set_connections (insert c cs) w0) end.
  assert (Hi0 : cells w !! i0 = None) by apply fresh_cell_None.
  assert (Hi1' : <[i0 := pending]> (cells w) !! i1 = None) by apply fresh_cell_None.
  apply lookup_insert_None in Hi1' as [Hi1 Hi].
  assert (Hev2 : events_of w2 (Connection_ c) = Some (connection_events0 i0 i1)).
  { simpl. by rewrite lookup_insert_eq. }
  assert (Hb1 : EventHandler.bind_event (Connection_ c) "connection_made" (_add_connection self c) w2
                = (Ret tt, set_cells (insert i0 (EventHandler.add_callback (_add_connection self c) pending)) w2)).
  { unfold EventHandler.bind_event. rewrite (bind_Ret _ _ _ _ _ (events_spec _ _ _ Hev2)).
    replace (connection_events0 i0 i1 !! "connection_made") with (Some (OneTime i0)).
    2:{ unfold connection_events0. by rewrite !lookup_insert_ne, lookup_insert_eq by done. }
    rewrite (bind_Ret _ _ w2 pending w2).
    2:{ unfold get_cell. simpl. by rewrite lookup_insert_ne, lookup_insert_eq by done. }
    done. }
  rewrite (bind_Ret _ _ _ _ _ Hb1).
  match goal with |- context [bind (EventHandler.copy_many_times_events _ _) _ ?w0] => set (w3 := w0) end.
  destruct (copy_many_times_events_spec w3 (Connection_ c) (Producer_ (default self producer))
              (connection_events0 i0 i1) (producer_events (default ps (if decide (self = default self producer) then Some (ConnectionProducer.set__received (_received s + 1) s) else None))))
    as (ev' & Hcopy & Hext).
  { simpl. by rewrite lookup_insert_eq. }
  { simpl. rewrite lookup_insert. case_decide as Hd; [done|]. by rewrite Hps. }
  rewrite (bind_Ret _ _ _ _ _ Hcopy).
  set (w4 := with_events (Connection_ c) ev' w3).
  assert (Hlost : ev' !! "connection_lost" = Some (OneTime i1)).
  { eapply many_times_ext_one_time; [exact Hext|]. unfold connection_events0.
    by rewrite !lookup_insert_ne, lookup_insert_eq by done. }
  assert (Hmade : ev' !! "connection_made" = Some (OneTime i0)).
  { eapply many_times_ext_one_time; [exact Hext|]. unfold connection_events0.
    by rewrite !lookup_insert_ne, lookup_insert_eq by done. }
  assert (Hb2 : EventHandler.bind_event (Connection_ c) "connection_lost" (_remove_connection self c) w4
                = (Ret tt, set_cells (insert i1 (EventHandler.add_callback (_remove_connection self c) pending)) w4)).
  { unfold EventHandler.bind_event.
    rewrite (bind_Ret _ _ w4 ev' w4).
    2:{ apply events_spec. simpl. by rewrite lookup_alter_eq, lookup_insert_eq. }
    rewrite Hlost.
    rewrite (bind_Ret _ _ w4 pending w4).
    2:{ unfold get_cell. simpl. by rewrite lookup_insert_ne, lookup_insert_eq by done. }
    done. }
  rewrite (bind_Ret _ _ _ _ _ Hb2).
  exists c, i0, i1, ev'. eexists. split; [reflexivity|]. split; [done|]. split.
  { apply not_elem_of_dom, is_fresh. }
  split. { simpl. by rewrite alter_insert_eq. }
  repeat (split; [done|]). split; [|done]. simpl.
  apply map_eq. intros k.
  destruct (decide (k = i1)) as [->|Hk1]; [by rewrite !lookup_insert_eq|].
  rewrite !(lookup_insert_ne _ i1 k) by done.
  destruct (decide (k = i0)) as [->|Hk0]; [by rewrite !lookup_insert_eq|].
  by rewrite !lookup_insert_ne by done.
Qed.

Lemma has_finished_spec w self s i ci :
  consumers w !! self = Some s →
  consumer_events s !! "finish" = Some (OneTime i) → cells w !! i = Some ci →
  has_finished self w = (Ret (done ci), w).
Proof.
  intros Hs Hi Hci. unfold has_finished.
  rewrite (bind_Ret _ _ w ci w); [done|]. unfold EventHandler.event.
  rewrite (bind_Ret _ _ w (consumer_events s) w) by (apply events_spec; simpl; by rewrite Hs).
  rewrite Hi. unfold get_cell. by rewrite Hci.
Qed.

(** ** Properties of the specification *)

(** C10: [start] raises [RuntimeError] when the consumer has no connection, or
    when its connection has no transport; the world is left as it was, so no
    [pre_request] event is fired and [start_request] does not run. *)
Theorem start_needs_connection_and_transport
    (start_request : consumer_id → M unit) (w : World)
    (self : consumer_id) (s : ConsumerState) (request : PyVal) :
  consumers w !! self = Some s →
  (_connection s = None ∨
   ∃ conn cs, _connection s = Some conn ∧ connections w !! conn = Some cs
              ∧ _transport cs = None) →
  ∃ msg, ProtocolConsumer.start start_request self request w
         = (Raise (RuntimeError msg), w).
Proof.
  intros Hs [Hc | (conn & cs & Hc & Hcs & Ht)];
    unfold ProtocolConsumer.start; unfold_M; rewrite Hs, Hc.
  - eauto.
  - rewrite Hcs, Ht. eauto.
Qed.

(** C10 at a consumer that was built without a connection. *)
Lemma start_needs_connection_and_transport_witness :
  ∃ msg, ProtocolConsumer.start Scenarios.no_request 0%nat PyNone Scenarios.unbound
         = (Raise (RuntimeError msg), Scenarios.unbound).
Proof.
  apply (start_needs_connection_and_transport Scenarios.no_request Scenarios.unbound 0%nat
           (Scenarios.consumer_of Scenarios.unbound 0%nat)).
  - vm_compute. reflexivity.
  - left. vm_compute. reflexivity.
Defined.



(** C7: the reconnect policy.  On a connection with [processed >= 2] and no
    data received, [can_reconnect] returns 1, sets [exc.logged] and leaves the
    consumer alone; otherwise, below [max_reconnect] it increments
    [reconnect_retries], logs [exc] and returns the new count; otherwise it
    returns 0. *)
Theorem can_reconnect_policy (w : World) (self : consumer_id) (s : ConsumerState)
    (max_reconnect : Z) (exc : Failure) :
  consumers w !! self = Some s →
  (∀ conn, _connection s = Some conn → is_Some (connections w !! conn)) →
  (stale w s →
     ProtocolConsumer.can_reconnect self max_reconnect exc w
     = (Ret (1, {| logged := true; log_calls := log_calls exc |}), w)) ∧
  (¬ stale w s → _reconnect_retries s < max_reconnect →
     ProtocolConsumer.can_reconnect self max_reconnect exc w
     = (Ret (_reconnect_retries s + 1,
             {| logged := logged exc; log_calls := S (log_calls exc) |}),
        set_consumers
          (insert self (ProtocolConsumer.set__reconnect_retries (_reconnect_retries s + 1) s))
          w)) ∧
  (¬ stale w s → max_reconnect ≤ _reconnect_retries s →
     ProtocolConsumer.can_reconnect self max_reconnect exc w = (Ret (0, exc), w)).
Proof.
  intros Hs Hconn. unfold stale, ProtocolConsumer.can_reconnect. unfold_M. rewrite Hs.
  destruct (_connection s) as [conn|] eqn:Hc.
  - destruct (Hconn conn eq_refl) as [cs Hcs]. rewrite Hcs.
    destruct (_data_received_count s =? 0) eqn:Hd; destruct (1 <? _processed cs) eqn:Hp; simpl.
    all: split; [| split].
    all: try (intros (conn' & cs' & Heq & Hcs' & ? & ?); simplify_eq; try lia; done).
    all: try (intros Hn; exfalso; apply Hn; exists conn, cs; repeat split; try done; lia).
    all: try (intros _ Hlt; apply Z.ltb_lt in Hlt as ->; done).
    all: try (intros _ Hge; apply Z.ltb_ge in Hge as ->; done).
  - split; [| split].
    + intros (conn' & cs' & Heq & _); done.
    + intros _ Hlt; apply Z.ltb_lt in Hlt as ->; done.
    + intros _ Hge; apply Z.ltb_ge in Hge as ->; done.
Qed.

(** C7 on a kept-alive connection that has retired two consumers. *)
Lemma can_reconnect_policy_witness :
  stale Scenarios.kept_alive (Scenarios.consumer_of Scenarios.kept_alive 2%nat) ∧
  ProtocolConsumer.can_reconnect 2%nat 0 {| logged := false; log_calls := 0 |}
    Scenarios.kept_alive
  = (Ret (1, {| logged := true; log_calls := 0 |}), Scenarios.kept_alive).
Proof.
  assert (Hstale : stale Scenarios.kept_alive (Scenarios.consumer_of Scenarios.kept_alive 2%nat)).
  { exists 0%nat, (Scenarios.connection_of Scenarios.kept_alive 0%nat).
    split; [vm_compute; reflexivity|]. split; [vm_compute; reflexivity|].
    split; [|vm_compute; reflexivity].
    vm_compute. discriminate. }
  split; [exact Hstale|].
  refine (proj1 (can_reconnect_policy Scenarios.kept_alive 2%nat
                   (Scenarios.consumer_of Scenarios.kept_alive 2%nat) 0
                   {| logged := false; log_calls := 0 |} _ _) Hstale).
  - vm_compute. reflexivity.
  - intros conn Hconn. vm_compute in Hconn. injection Hconn as <-.
    exists (Scenarios.connection_of Scenarios.kept_alive 0%nat). vm_compute. reflexivity.
Defined.


(** C3: with [max_connections = M > 0], a call of [new_connection] made when
    [received >= M] raises [TooManyConnections] and leaves the world, and so
    the [received] counter, as it was; after [M] successful calls on a new
    producer the counter is [M] and the next call fails that way. *)
Theorem admission_cap :
  (∀ w self s f producer,
     producers w !! self = Some s →
     0 < _max_connections s → _max_connections s ≤ _received s →
     ConnectionProducer.new_connection self f producer w
     = (Raise (TooManyConnections "Too many connections"), w)) ∧
  (∀ w0 timeout max_connections f,
     0 < max_connections →
     ∃ p w,
       (p ← ConnectionProducer.__init__ timeout (Some max_connections);
        new_connections (Z.to_nat max_connections) p f;; ret p) w0 = (Ret p, w)
       ∧ (∃ s, producers w !! p = Some s ∧ _received s = max_connections)
       ∧ ConnectionProducer.new_connection p f None w
         = (Raise (TooManyConnections "Too many connections"), w)).
Proof.
  split.
  - intros w self s f producer Hs H0 Hle. apply (new_connection_full _ _ s); [done | lia | done].
  - intros w0 timeout M f HM.
    rewrite (bind_Ret _ _ _ _ _ (producer_init_spec w0 timeout (Some M))).
    set (p := fresh (dom (producers w0))).
    match goal with |- context [set_producers (insert p ?s0) w0] =>
      set (s := s0); set (w1 := set_producers (insert p s) w0) end.
    assert (Hmax : _max_connections s = M).
    { subst s. simpl. destruct (M =? 0) eqn:?; [lia | done]. }
    destruct (new_connections_spec (Z.to_nat M) w1 p s f) as (w & Hrun & Hp).
    { subst w1. simpl. by rewrite lookup_insert_eq. }
    { rewrite Hmax. subst s. simpl. lia. }
    exists p, w. rewrite (bind_Ret _ _ _ _ _ Hrun). split; [done|].
    assert (_received (ConnectionProducer.set__received
                         (_received s + Z.of_nat (Z.to_nat M)) s) = M) as Hr.
    { subst s. simpl. lia. }
    split; [eauto|].
    eapply new_connection_full; [exact Hp | |].
    + change (_max_connections s ≠ 0). rewrite Hmax. lia.
    + rewrite Hr. change (_max_connections s ≤ M). rewrite Hmax. lia.
Qed.

(** C3 on a producer with [max_connections = 2]. *)
Lemma admission_cap_witness :
  0 < 2 ∧
  ∃ p w,
    (p ← ConnectionProducer.__init__ None (Some 2);
     new_connections (Z.to_nat 2) p (ConsumerClass 0);; ret p) empty_world = (Ret p, w)
    ∧ (∃ s, producers w !! p = Some s ∧ _received s = 2)
    ∧ ConnectionProducer.new_connection p (ConsumerClass 0) None w
      = (Raise (TooManyConnections "Too many connections"), w).
Proof.
  split; [lia|]. apply (proj2 admission_cap empty_world None 2 (ConsumerClass 0)). lia.
Defined.

(** C6: [_data_received] adds 1 to [data_received_count], resets
    [reconnect_retries], fires [data_received] with the buffer and only then
    enters the subclass method (in the world [w1]); when that method returns
    [result], [data_processed] is fired next and [result] is returned,
    the consumers being as the method left them. *)
Theorem data_received_protocol (data_received : consumer_id → bytes → M (option bytes))
    (w : World) (self : consumer_id) (s : ConsumerState) (data : bytes)
    (hs : list Handler) :
  consumers w !! self = Some s →
  consumer_events s !! "data_received" = Some (ManyTimes hs) →
  ∃ w1,
    consumers w1
    = <[self := ProtocolConsumer.set__reconnect_retries 0
                  (ProtocolConsumer.set__data_received_count (_data_received_count s + 1) s)]>
        (consumers w)
    ∧ trace w1 = trace w ++ Fire (Consumer_ self) "data_received" (PyBytes data)
                 :: calls (ManyTimesOf (Consumer_ self) "data_received") (PyBytes data) hs
                 ++ [Hook self "data_received" (PyBytes data)]
    ∧ ∀ result w2 s2 hs2,
        data_received self data w1 = (Ret result, w2) →
        consumers w2 !! self = Some s2 →
        consumer_events s2 !! "data_processed" = Some (ManyTimes hs2) →
        ∃ w3,
          ProtocolConsumer._data_received data_received self data w = (Ret result, w3)
          ∧ consumers w3 = consumers w2 ∧ connections w3 = connections w2
          ∧ cells w3 = cells w2
          ∧ trace w3 = trace w2 ++ Fire (Consumer_ self) "data_processed" (PyBytes data)
                       :: calls (ManyTimesOf (Consumer_ self) "data_processed")
                            (PyBytes data) hs2.
Proof.
  intros Hs Hn.
  destruct (_data_received_spec data_received w self s data hs Hs Hn)
    as (w1 & Hk & _ & _ & Ht & Hrun).
  exists w1. split; [done|]. split; [done|].
  intros result w2 s2 hs2 Hhook Hs2 Hn2. rewrite Hrun.
  rewrite (bind_Ret _ _ _ _ _ Hhook).
  destruct (fire_event_many_times w2 (Consumer_ self) (consumer_events s2) "data_processed"
              hs2 (PyBytes data)) as (w3 & Hf & ? & ? & ? & ?).
  { simpl. by rewrite Hs2. }
  { done. }
  rewrite (bind_Ret _ _ _ _ _ Hf). by exists w3.
Qed.

(** C6 on a consumer that reads one byte and waits for more. *)
Lemma data_received_protocol_witness :
  ∃ w1 w3,
    ProtocolConsumer._data_received Scenarios.hungry 0%nat [x41%byte]
      Scenarios.bound_not_started = (Ret None, w3)
    ∧ _data_received_count <$> consumers w3 !! 0%nat = Some 1
    ∧ trace w1 = trace Scenarios.bound_not_started
                 ++ [Fire (Consumer_ 0%nat) "data_received" (PyBytes [x41%byte]);
                     Hook 0%nat "data_received" (PyBytes [x41%byte])]
    ∧ trace w3 = trace w1 ++ [Fire (Consumer_ 0%nat) "data_processed" (PyBytes [x41%byte])].
Proof.
  destruct (data_received_protocol Scenarios.hungry Scenarios.bound_not_started 0%nat
              (Scenarios.consumer_of Scenarios.bound_not_started 0%nat) [x41%byte] [])
    as (w1 & Hk & Ht & Hrest).
  - vm_compute. reflexivity.
  - vm_compute. reflexivity.
  - destruct (Hrest None w1 _ [] eq_refl
                ltac:(rewrite Hk; apply lookup_insert_eq) ltac:(vm_compute; reflexivity))
      as (w3 & Hrun & Hk3 & _ & _ & Ht3).
    exists w1, w3. split; [exact Hrun|]. split; [|split; [exact Ht | exact Ht3]].
    rewrite Hk3, Hk, lookup_insert_eq. vm_compute. reflexivity.
Defined.




(** C4, as stated, fails: consumer 0 has retired and connection 0 is held by
    consumer 1; a second [finished] on consumer 0 empties the slot although
    it does not hold consumer 0. *)
Lemma finished_evicts_another_consumer :
  ¬ (∀ (w w' : World) (self other : consumer_id) (s : ConsumerState)
       (c : conn_id) (cs : ConnectionState) (result : PyVal),
       consumers w !! self = Some s → _connection s = Some c →
       connections w !! c = Some cs → _current_consumer cs = Some other →
       ProtocolConsumer.finished self result w = (Ret tt, w') →
       _current_consumer <$> connections w' !! c = Some None →
       other = self).
Proof.
  intros H.
  specialize (H Scenarios.second_request
                (snd (ProtocolConsumer.finished 0%nat PyNone Scenarios.second_request))
                0%nat 1%nat
                (Scenarios.consumer_of Scenarios.second_request 0%nat) 0%nat
                (Scenarios.connection_of Scenarios.second_request 0%nat) PyNone).
  assert (1%nat = 0%nat) as Heq; [|discriminate Heq].
  apply H; vm_compute; reflexivity.
Qed.

(** C4, amended: [finished] empties the slot of the consumer's connection
    whenever the consumer has a connection, whatever the slot holds, and
    leaves the other connections alone; it then fires [finish] with the
    result, and after it [post_request] with the same result. *)
Theorem finished_detaches_then_fires
    (w : World) (self : consumer_id) (s : ConsumerState) (result : PyVal)
    (i j : cell_id) (ci cj : Cell) :
  consumers w !! self = Some s →
  (∀ c, _connection s = Some c → is_Some (connections w !! c)) →
  consumer_events s !! "finish" = Some (OneTime i) → cells w !! i = Some ci →
  consumer_events s !! "post_request" = Some (OneTime j) → cells w !! j = Some cj →
  i ≠ j →
  ∃ w', ProtocolConsumer.finished self result w = (Ret tt, w')
    ∧ (∀ c, _connection s = Some c →
            _current_consumer <$> connections w' !! c = Some None)
    ∧ (∀ c, _connection s ≠ Some c → connections w' !! c = connections w !! c)
    ∧ trace w' = trace w ++ Fire (Consumer_ self) "finish" result :: callbacks_run i ci result
                 ++ Fire (Consumer_ self) "post_request" result :: callbacks_run j cj result.
Proof.
  intros Hs Hconn Hi Hci Hj Hcj Hij.
  destruct (finished_spec w self s result i ci j cj) as (w' & Hrun & _ & Hc & _ & Ht);
    try done.
  exists w'. split; [done|]. split; [|split; [|done]].
  - intros c Hc'. rewrite Hc, Hc'. destruct (Hconn c Hc') as [cs Hcs].
    by rewrite lookup_alter_eq, Hcs.
  - intros c Hne. rewrite Hc. destruct (_connection s) as [c'|]; [|done].
    apply lookup_alter_ne. congruence.
Qed.

(** C4, amended, on the connection held by consumer 1: [finished] on the
    retired consumer 0 empties the slot. *)
Lemma finished_detaches_then_fires_witness :
  ∃ w', ProtocolConsumer.finished 0%nat PyNone Scenarios.second_request = (Ret tt, w')
        ∧ _current_consumer <$> connections w' !! 0%nat = Some None
        ∧ trace w' = trace Scenarios.second_request
                     ++ [Fire (Consumer_ 0%nat) "finish" PyNone;
                         Fire (Consumer_ 0%nat) "post_request" PyNone].
Proof.
  destruct (finished_detaches_then_fires Scenarios.second_request 0%nat
              (Scenarios.consumer_of Scenarios.second_request 0%nat) PyNone 3%nat 4%nat
              (Scenarios.cell_of Scenarios.second_request 3%nat)
              (Scenarios.cell_of Scenarios.second_request 4%nat))
    as (w' & Hrun & Hslot & _ & Ht).
  - vm_compute. reflexivity.
  - intros c Hc. vm_compute in Hc. injection Hc as <-.
    exists (Scenarios.connection_of Scenarios.second_request 0%nat). vm_compute. reflexivity.
  - vm_compute. reflexivity.
  - vm_compute. reflexivity.
  - vm_compute. reflexivity.
  - vm_compute. reflexivity.
  - discriminate.
  - exists w'. split; [exact Hrun|]. split.
    + apply Hslot. vm_compute. reflexivity.
    + exact Ht.
Defined.

(** C2: in a turn of the loop of [data_received] in which the consumer hands
    back a non-empty residual, the loop raises [ProtocolError] if the slot of
    the connection is still taken; if the slot is empty, the loop goes on with
    the residual, which goes to a consumer built by the factory.  A
    [ProtocolError] of the loop is the outcome of [data_received]. *)
Theorem residual_discipline
    (consumer_data_received : consumer_id → bytes → M (option bytes))
    (start_request : consumer_id → M unit)
    (fuel : nat) (self : conn_id) (data : bytes)
    (w w1 w2 : World) (consumer : consumer_id) (residual : bytes)
    (cs : ConnectionState) :
  data ≠ [] →
  Connection.consumer_for start_request self w = (Ret consumer, w1) →
  ProtocolConsumer._data_received consumer_data_received consumer data w1
  = (Ret (Some residual), w2) →
  residual ≠ [] →
  connections w2 !! self = Some cs →
  (is_Some (_current_consumer cs) →
     Connection.data_received_loop consumer_data_received start_request (S fuel) self data w
     = (Raise (ProtocolError "current consumer not done."), w2)
     ∧ ∀ w0, Connection._cancel_timeout self w0 = (Ret tt, w) →
             Connection.data_received consumer_data_received start_request (S fuel) self data w0
             = (Raise (ProtocolError "current consumer not done."), w2))
  ∧ (_current_consumer cs = None →
       Connection.data_received_loop consumer_data_received start_request (S fuel) self data w
       = Connection.data_received_loop consumer_data_received start_request fuel self residual w2
       ∧ Connection.consumer_for start_request self w2
         = (k ← Connection.call (_consumer_factory cs) (Some self);
            ProtocolConsumer.start start_request k PyNone;;
            ret k) w2).
Proof.
  intros Hdata Hfor Hrecv Hres Hcs.
  assert (Hturn :
    Connection.data_received_loop consumer_data_received start_request (S fuel) self data w
    = (if bool_decide (is_Some (_current_consumer cs))
       then raise (ProtocolError "current consumer not done.")
       else Connection.data_received_loop consumer_data_received start_request
              fuel self residual) w2).
  { destruct data as [|b data]; [done|].
    cbn [Connection.data_received_loop]. unfold Connection.data_received_turn.
    unfold bind at 1. unfold bind at 1.
    rewrite Hfor. unfold bind at 1. rewrite Hrecv.
    rewrite (bind_Ret _ _ _ _ _ (get_connection_spec _ _ _ Hcs)).
    destruct residual as [|b' residual]; [done|]. simpl.
    by destruct (bool_decide _). }
  split.
  - intros Hsome. rewrite Hturn, bool_decide_eq_true_2 by done. split; [done|].
    intros w0 Hcancel. unfold Connection.data_received.
    rewrite (bind_Ret _ _ _ _ _ Hcancel). unfold bind at 1.
    by rewrite Hturn, bool_decide_eq_true_2.
  - intros Hnone. rewrite Hturn, bool_decide_eq_false_2 by (rewrite Hnone; by inversion 1).
    split; [done|]. unfold Connection.consumer_for.
    by rewrite (bind_Ret _ _ _ _ _ (get_connection_spec _ _ _ Hcs)), Hnone.
Qed.

(** C2 on the bytes [AB] sent to a server whose consumers take one byte and
    retire: the first consumer hands back [B] with the slot empty. *)
Lemma residual_discipline_witness :
  Connection.data_received_loop Scenarios.by_class Scenarios.no_request 10 0%nat
    [x41%byte; x42%byte] Scenarios.accepting
  = Connection.data_received_loop Scenarios.by_class Scenarios.no_request 9 0%nat
      [x42%byte]
      (snd (ProtocolConsumer._data_received Scenarios.by_class 0%nat [x41%byte; x42%byte]
              (snd (Connection.consumer_for Scenarios.no_request 0%nat
                      Scenarios.accepting)))).
Proof.
  refine (proj1 (proj2 (residual_discipline Scenarios.by_class Scenarios.no_request 9 0%nat
                          [x41%byte; x42%byte] Scenarios.accepting
                          (snd (Connection.consumer_for Scenarios.no_request 0%nat
                                  Scenarios.accepting))
                          (snd (ProtocolConsumer._data_received Scenarios.by_class 0%nat
                                  [x41%byte; x42%byte]
                                  (snd (Connection.consumer_for Scenarios.no_request 0%nat
                                          Scenarios.accepting))))
                          0%nat [x42%byte]
                          (Scenarios.connection_of
                             (snd (ProtocolConsumer._data_received Scenarios.by_class 0%nat
                                     [x41%byte; x42%byte]
                                     (snd (Connection.consumer_for Scenarios.no_request
                                             0%nat Scenarios.accepting)))) 0%nat)
                          _ _ _ _ _) _)).
  - discriminate.
  - vm_compute. reflexivity.
  - vm_compute. reflexivity.
  - discriminate.
  - vm_compute. reflexivity.
  - vm_compute. reflexivity.
Defined.






(** C5, as stated, fails: connection 0 is idle with its timer armed; a byte
    arrives, a consumer is bound and waits for more, and [data_received]
    arms the timer again on its way out. *)
Lemma data_received_arms_timer_with_consumer_bound :
  ¬ (∀ (consumer_data_received : consumer_id → bytes → M (option bytes))
       (start_request : consumer_id → M unit) (fuel : nat) (c : conn_id)
       (data : bytes) (w w' : World),
       timer_mutex w →
       Connection.data_received consumer_data_received start_request fuel c data w
       = (Ret tt, w') →
       timer_mutex w').
Proof.
  intros H.
  specialize (H Scenarios.by_class Scenarios.no_request 10%nat 0%nat [x41%byte]
                Scenarios.idle
                (snd (Connection.data_received Scenarios.by_class Scenarios.no_request
                        10 0%nat [x41%byte] Scenarios.idle))
                timer_mutex_idle ltac:(vm_compute; reflexivity)).
  match type of H with timer_mutex ?w' =>
    destruct (H 0%nat (Scenarios.connection_of w' 0%nat)) as [Hslot _]
  end.
  - vm_compute. reflexivity.
  - vm_compute. eauto.
  - vm_compute in Hslot. discriminate Hslot.
Qed.

(** C5, amended: between the operations, an armed idle timer means that the
    connection has a transport and a timeout other than 0, provided the
    subclass methods keep it so; [_add_idle_timeout] arms the timer only when
    none is armed, the transport is open and the timeout is not 0, and it
    does not look at the current consumer. *)
Theorem timer_armed_only_with_transport_and_timeout
    (consumer_data_received : consumer_id → bytes → M (option bytes))
    (start_request : consumer_id → M unit) :
  (∀ k data, preserves timer_inv (consumer_data_received k data)) →
  (∀ k, preserves timer_inv (start_request k)) →
  timer_inv empty_world
  ∧ (∀ op w, timer_inv w →
             timer_inv (snd (perform consumer_data_received start_request op w)))
  ∧ (∀ c w s s',
       connections w !! c = Some s →
       connections (snd (Connection._add_idle_timeout c w)) !! c = Some s' →
       _idle_timeout s' ≠ _idle_timeout s →
       Connection.closed s = false ∧ _idle_timeout s = None ∧ _timeout s ≠ 0
       ∧ s' = Connection.set__idle_timeout (Some (_timeout s)) s).
Proof.
  intros Hdr Hsr. split; [|split].
  - intros c cs Hc. unfold empty_world in Hc. simpl in Hc. by rewrite lookup_empty in Hc.
  - intros op w. by apply preserves_perform.
  - intros c w s s' Hs. unfold Connection._add_idle_timeout, bind, get_connection.
    rewrite Hs. simpl.
    destruct (Connection.closed s) eqn:Hclosed; simpl.
    { rewrite Hs. by intros [= <-]. }
    destruct (_idle_timeout s) as [t|] eqn:Hidle; simpl.
    { rewrite Hs. intros [= <-]. by rewrite Hidle. }
    destruct (_timeout s =? 0) eqn:Ht; simpl.
    { rewrite Hs. intros [= <-]. by rewrite Hidle. }
    rewrite lookup_insert_eq. intros [= <-] _.
    repeat split; [lia].
Qed.

(** C5, amended, on the idle connection 0 when a byte arrives. *)
Lemma timer_armed_only_with_transport_and_timeout_witness :
  timer_inv Scenarios.idle ∧
  timer_inv (snd (perform Scenarios.by_class Scenarios.no_request
                    (op_data_received 10 0%nat [x41%byte]) Scenarios.idle)).
Proof.
  split; [exact timer_inv_idle|].
  exact (proj1 (proj2 (timer_armed_only_with_transport_and_timeout
                         Scenarios.by_class Scenarios.no_request
                         preserves_by_class preserves_no_request))
           (op_data_received 10 0%nat [x41%byte]) Scenarios.idle timer_inv_idle).
Defined.

(** ** Further properties of the code *)



(** X2: building a consumer with a connection whose slot is taken raises
    [AssertionError]; the new consumer is left unbound and the connections
    are as they were. *)
Theorem consumer_init_slot_taken (w : World) (cls : nat) (c : conn_id)
    (cs : ConnectionState) (other : consumer_id) :
  connections w !! c = Some cs → _current_consumer cs = Some other →
  ∃ w',
    ProtocolConsumer.__init__ Connection.set_consumer cls (Some c) w
    = (Raise (AssertionError "Consumer is not None"), w')
    ∧ connections w' = connections w
    ∧ trace w' = trace w
    ∧ (∀ k s, consumers w' !! k = Some s → consumers w !! k = None →
              _connection s = None).
Proof.
  intros Hcs Hcur. rewrite consumer_init_with_connection.
  set (k := fresh (dom (consumers w))).
  match goal with |- context [set_consumers (insert k ?s0) ?w0] =>
    set (sk := s0); set (wa := set_consumers (insert k sk) w0) end.
  unfold Connection.set_consumer.
  unfold bind at 1.
  rewrite (bind_Ret _ _ _ _ _ (get_connection_spec wa c cs Hcs)), Hcur.
  eexists. split; [reflexivity|]. split; [done|]. split; [done|].
  intros k' s Hs Hnew. subst wa. simpl in Hs.
  destruct (decide (k = k')) as [<-|Hne].
  - rewrite lookup_insert_eq in Hs. by injection Hs as <-.
  - rewrite lookup_insert_ne in Hs by done. congruence.
Qed.

(** X2 on connection 0 while consumer 0 waits for more data. *)
Lemma consumer_init_slot_taken_witness :
  ∃ w',
    ProtocolConsumer.__init__ Connection.set_consumer 1 (Some 0%nat) Scenarios.waiting
    = (Raise (AssertionError "Consumer is not None"), w')
    ∧ connections w' = connections Scenarios.waiting.
Proof.
  destruct (consumer_init_slot_taken Scenarios.waiting 1 0%nat
              (Scenarios.connection_of Scenarios.waiting 0%nat) 0%nat)
    as (w' & Hrun & Hc & _).
  - vm_compute. reflexivity.
  - vm_compute. reflexivity.
  - exists w'. split; [exact Hrun | exact Hc].
Defined.

(** X3: [data_received] with an empty buffer builds no consumer and fires no
    event, whatever the fuel: it cancels the idle timer and arms it again. *)
Theorem data_received_empty
    (consumer_data_received : consumer_id → bytes → M (option bytes))
    (start_request : consumer_id → M unit)
    (fuel : nat) (w : World) (c : conn_id) (cs : ConnectionState) :
  connections w !! c = Some cs →
  ∃ w',
    Connection.data_received consumer_data_received start_request fuel c [] w = (Ret tt, w')
    ∧ connections w' = <[c := rearmed cs]> (connections w)
    ∧ same_but_connections w w'.
Proof.
  intros Hcs. destruct (rearm_spec w c cs Hcs) as (w' & Hrun & Hc & Hsame).
  exists w'. split; [|done]. rewrite <- Hrun. unfold Connection.data_received.
  unfold bind. destruct (Connection._cancel_timeout c w) as [[[]|e| |] w1]; try done.
  by destruct fuel.
Qed.

(** X3 on the connection held by a waiting consumer. *)
Lemma data_received_empty_witness :
  ∃ w',
    Connection.data_received Scenarios.by_class Scenarios.no_request 0 0%nat []
      Scenarios.waiting = (Ret tt, w')
    ∧ same_but_connections Scenarios.waiting w'.
Proof.
  destruct (data_received_empty Scenarios.by_class Scenarios.no_request 0 Scenarios.waiting
              0%nat (Scenarios.connection_of Scenarios.waiting 0%nat))
    as (w' & Hrun & _ & Hsame).
  - vm_compute. reflexivity.
  - exists w'. split; [exact Hrun | exact Hsame].
Defined.

(** X4: [set_timeout] stores the new timeout and leaves the idle timer armed
    with it exactly when the transport is open and the timeout is not 0; a
    timer armed before is cancelled. *)
Theorem set_timeout_rearms (w : World) (c : conn_id) (cs : ConnectionState) (timeout : Z) :
  connections w !! c = Some cs →
  ∃ w',
    Connection.set_timeout c timeout w = (Ret tt, w')
    ∧ connections w' = <[c := rearmed (Connection.set__timeout timeout cs)]> (connections w)
    ∧ same_but_connections w w'.
Proof.
  intros Hcs. unfold Connection.set_timeout.
  destruct (_cancel_timeout_spec w c cs Hcs) as (w1 & Hcancel & Hc1 & Hk1 & Hp1 & Hcell1 & Ht1).
  rewrite (bind_Ret _ _ _ _ _ Hcancel).
  rewrite (bind_Ret _ _ _ _ _
             (connection_update_spec w1 c (Connection.set__idle_timeout None cs) _
                ltac:(rewrite Hc1; apply lookup_insert_eq))).
  match goal with |- context [Connection._add_idle_timeout c ?w0] => set (w2 := w0) end.
  destruct (_add_idle_timeout_spec w2 c
              (Connection.set__timeout timeout (Connection.set__idle_timeout None cs)))
    as (w3 & Hadd & Hc3 & Hk3 & Hp3 & Hcell3 & Ht3).
  { subst w2. simpl. apply lookup_insert_eq. }
  { done. }
  exists w3. split; [done|]. split.
  - rewrite Hc3. subst w2. simpl. rewrite Hc1, !insert_insert_eq. done.
  - unfold same_but_connections. rewrite Hk3, Hp3, Hcell3, Ht3. by subst w2.
Qed.

(** X4 on the idle connection 0, whose timeout is set to 0. *)
Lemma set_timeout_rearms_witness :
  ∃ w',
    Connection.set_timeout 0%nat 0 Scenarios.idle = (Ret tt, w')
    ∧ _idle_timeout <$> connections w' !! 0%nat = Some None.
Proof.
  destruct (set_timeout_rearms Scenarios.idle 0%nat
              (Scenarios.connection_of Scenarios.idle 0%nat) 0)
    as (w' & Hrun & Hc & _).
  - vm_compute. reflexivity.
  - exists w'. split; [exact Hrun|]. rewrite Hc, lookup_insert_eq. vm_compute. reflexivity.
Defined.

(** X5: when bytes arrive on a connection that has no transport and no
    consumer, [data_received] raises the [RuntimeError] of [start]; the
    consumer that the factory has just built stays in the slot and is counted
    as processed, no event is fired and the idle timer is left cancelled. *)
Theorem data_received_without_transport
    (consumer_data_received : consumer_id → bytes → M (option bytes))
    (start_request : consumer_id → M unit)
    (fuel : nat) (w : World) (c : conn_id) (cs : ConnectionState) (cls : nat)
    (b : byte) (data : bytes) :
  connections w !! c = Some cs → _transport cs = None →
  _current_consumer cs = None → _consumer_factory cs = ConsumerClass cls →
  ∃ k w',
    Connection.data_received consumer_data_received start_request (S fuel) c (b :: data) w
    = (Raise (RuntimeError ("<pending-connection> session " +:+ pretty (_session cs)
                            +:+ " has no transport.")), w')
    ∧ consumers w !! k = None
    ∧ connections w'
      = <[c := bound k true (Connection.set__idle_timeout None cs)]> (connections w)
    ∧ trace w' = trace w.
Proof.
  intros Hcs Htr Hcur Hfac. unfold Connection.data_received.
  destruct (_cancel_timeout_spec w c cs Hcs) as (w1 & Hcancel & Hc1 & Hk1 & Hp1 & Hcell1 & Ht1).
  rewrite (bind_Ret _ _ _ _ _ Hcancel).
  set (cs1 := Connection.set__idle_timeout None cs) in *.
  assert (Hcs1 : connections w1 !! c = Some cs1) by (rewrite Hc1; apply lookup_insert_eq).
  destruct (consumer_init_bound w1 cls c cs1 Hcs1 Hcur)
    as (k & sk & w2 & Hinit & Hfresh & Hk2 & Hconn & _ & _ & _ & _ & _ & Hc2 & Ht2).
  exists k, w2. split; [|split; [by rewrite <- Hk1|split]].
  - unfold bind at 1. cbn [Connection.data_received_loop].
    unfold Connection.data_received_turn, Connection.consumer_for.
    unfold bind at 1. unfold bind at 1. unfold bind at 1.
    rewrite (get_connection_spec _ _ _ Hcs1).
    change (_current_consumer cs1) with (_current_consumer cs). rewrite Hcur.
    change (_consumer_factory cs1) with (_consumer_factory cs). rewrite Hfac.
    cbn [Connection.call]. unfold bind at 1. rewrite Hinit.
    unfold bind at 1. unfold ProtocolConsumer.start.
    rewrite (bind_Ret _ _ w2 sk w2)
      by (apply get_consumer_spec; rewrite Hk2; apply lookup_insert_eq).
    rewrite Hconn.
    rewrite (bind_Ret _ _ w2 (bound k true cs1) w2)
      by (apply get_connection_spec; rewrite Hc2; apply lookup_insert_eq).
    change (_transport (bound k true cs1)) with (_transport cs). rewrite Htr.
    done.
  - by rewrite Hc2, Hc1, insert_insert_eq.
  - by rewrite Ht2.
Qed.

Lemma data_received_without_transport_witness :
  ∃ k w',
    Connection.data_received Scenarios.by_class Scenarios.no_request 10 0%nat [x41%byte]
      Edge.pending_connection
    = (Raise (RuntimeError
                ("<pending-connection> session "
                 +:+ pretty (_session (Scenarios.connection_of Edge.pending_connection 0%nat))
                 +:+ " has no transport.")), w')
    ∧ consumers Edge.pending_connection !! k = None
    ∧ trace w' = trace Edge.pending_connection.
Proof.
  destruct (data_received_without_transport Scenarios.by_class Scenarios.no_request 9
              Edge.pending_connection 0%nat
              (Scenarios.connection_of Edge.pending_connection 0%nat) 1 x41%byte [])
    as (k & w' & Hrun & Hk & _ & Ht).
  - vm_compute. reflexivity.
  - vm_compute. reflexivity.
  - vm_compute. reflexivity.
  - vm_compute. reflexivity.
  - exists k, w'. split; [exact Hrun|]. split; [exact Hk | exact Ht].
Defined.

(** X6: a turn in which the consumer hands back nothing, or an empty buffer,
    ends the loop, whether or not the consumer has retired; [data_received]
    then only arms the idle timer. *)
Theorem no_residual_ends_the_call
    (consumer_data_received : consumer_id → bytes → M (option bytes))
    (start_request : consumer_id → M unit)
    (fuel : nat) (c : conn_id) (data : bytes) (w0 w w1 w2 : World)
    (consumer : consumer_id) (residual : option bytes) (cs : ConnectionState) :
  data ≠ [] →
  Connection._cancel_timeout c w0 = (Ret tt, w) →
  Connection.consumer_for start_request c w = (Ret consumer, w1) →
  ProtocolConsumer._data_received consumer_data_received consumer data w1
  = (Ret residual, w2) →
  truthy residual = false →
  connections w2 !! c = Some cs →
  Connection.data_received_loop consumer_data_received start_request (S fuel) c data w
  = (Ret tt, w2)
  ∧ Connection.data_received consumer_data_received start_request (S fuel) c data w0
    = Connection._add_idle_timeout c w2.
Proof.
  intros Hdata Hcancel Hfor Hrecv Hres Hcs.
  assert (Hloop : Connection.data_received_loop consumer_data_received start_request
                    (S fuel) c data w = (Ret tt, w2)).
  { destruct data as [|b data]; [done|].
    cbn [Connection.data_received_loop]. unfold Connection.data_received_turn.
    unfold bind at 1. unfold bind at 1.
    rewrite Hfor. unfold bind at 1. rewrite Hrecv.
    rewrite (bind_Ret _ _ _ _ _ (get_connection_spec _ _ _ Hcs)).
    rewrite Hres. simpl.
    destruct residual as [[|b' r]|]; [|done|]; by destruct fuel. }
  split; [done|]. unfold Connection.data_received.
  rewrite (bind_Ret _ _ _ _ _ Hcancel). by rewrite (bind_Ret _ _ _ _ _ Hloop).
Qed.

Lemma no_residual_ends_the_call_witness :
  Connection.data_received Scenarios.by_class Scenarios.no_request 10 0%nat [x41%byte]
    Scenarios.idle
  = (Ret tt, Scenarios.waiting).
Proof.
  etransitivity.
  - refine (proj2 (no_residual_ends_the_call Scenarios.by_class Scenarios.no_request 9 0%nat
              [x41%byte] Scenarios.idle
              (snd (Connection._cancel_timeout 0%nat Scenarios.idle))
              (snd (Connection.consumer_for Scenarios.no_request 0%nat
                      (snd (Connection._cancel_timeout 0%nat Scenarios.idle))))
              (snd (ProtocolConsumer._data_received Scenarios.by_class 0%nat [x41%byte]
                      (snd (Connection.consumer_for Scenarios.no_request 0%nat
                              (snd (Connection._cancel_timeout 0%nat Scenarios.idle))))))
              0%nat None
              (Connection.set__idle_timeout None (Scenarios.connection_of Scenarios.waiting 0%nat))
              _ _ _ _ _ _)).
    + discriminate.
    + vm_compute. reflexivity.
    + vm_compute. reflexivity.
    + vm_compute. reflexivity.
    + reflexivity.
    + vm_compute. reflexivity.
  - vm_compute. reflexivity.
Defined.

(** X7: the first [connection_lost] of a connection that holds a consumer
    resolves the [connection_lost] event, cancels the idle timer, logs the
    failure and finishes the consumer with it: the slot is emptied and
    [finish], then [post_request], are fired with the exception. *)
Theorem connection_lost_finishes_consumer
    (w : World) (c : conn_id) (cs : ConnectionState) (l : cell_id) (cl : Cell)
    (a : consumer_id) (sa : ConsumerState) (i j : cell_id) (ci cj : Cell) (exc : PyVal) :
  connections w !! c = Some cs →
  connection_events cs !! "connection_lost" = Some (OneTime l) →
  cells w !! l = Some cl → done cl = false →
  _current_consumer cs = Some a → consumers w !! a = Some sa → _connection sa = Some c →
  consumer_events sa !! "finish" = Some (OneTime i) → cells w !! i = Some ci →
  consumer_events sa !! "post_request" = Some (OneTime j) → cells w !! j = Some cj →
  i ≠ j → l ≠ i → l ≠ j →
  ∃ w',
    Connection.connection_lost c exc w = (Ret tt, w')
    ∧ connections w'
      = <[c := ProtocolConsumer.set__current_consumer None
                 (Connection.set__idle_timeout None cs)]> (connections w)
    ∧ consumers w' = consumers w
    ∧ cells w' = <[j := fired exc cj]> (<[i := fired exc ci]>
                   (<[l := EventHandler.resolve exc cl]> (cells w)))
    ∧ trace w' = trace w ++ Fire (Connection_ c) "connection_lost" exc
                 :: calls (OneTimeCell l) exc (cell_callbacks cl)
                 ++ LogFailure exc
                 :: Fire (Consumer_ a) "finish" exc :: callbacks_run i ci exc
                 ++ Fire (Consumer_ a) "post_request" exc :: callbacks_run j cj exc.
Proof.
  intros Hcs Hl Hcl Hdl Hcur Hsa Hback Hi Hci Hj Hcj Hij Hli Hlj.
  unfold Connection.connection_lost.
  destruct (fire_event_one_time w (Connection_ c) (connection_events cs) "connection_lost"
              l cl exc) as (w1 & Hfire & Hk1 & Hc1 & Hcell1 & Ht1).
  { simpl. by rewrite Hcs. }
  { done. }
  { done. }
  rewrite (bind_Ret _ _ _ _ _ Hfire), Hdl. simpl.
  destruct (_cancel_timeout_spec w1 c cs) as (w2 & Hcancel & Hc2 & Hk2 & Hp2 & Hcell2 & Ht2).
  { by rewrite Hc1. }
  rewrite (bind_Ret _ _ _ _ _ Hcancel).
  set (cs2 := Connection.set__idle_timeout None cs) in *.
  rewrite (bind_Ret _ _ w2 cs2 w2)
    by (apply get_connection_spec; rewrite Hc2; apply lookup_insert_eq).
  change (_current_consumer cs2) with (_current_consumer cs). rewrite Hcur.
  unfold ProtocolConsumer.connection_lost.
  rewrite (bind_Ret _ _ w2 tt (add_trace (LogFailure exc) w2)) by done.
  destruct (finished_spec (add_trace (LogFailure exc) w2) a sa exc i ci j cj)
    as (w3 & Hfin & Hk3 & Hc3 & Hcell3 & Ht3).
  { simpl. by rewrite Hk2, Hk1. }
  { intros c0 Hc0. rewrite Hback in Hc0. injection Hc0 as <-. simpl.
    rewrite Hc2, lookup_insert_eq. eauto. }
  { done. }
  { simpl. rewrite Hcell2, Hcell1. unfold fired. rewrite Hdl.
    by rewrite lookup_insert_ne. }
  { done. }
  { simpl. rewrite Hcell2, Hcell1. unfold fired. rewrite Hdl.
    by rewrite lookup_insert_ne. }
  { done. }
  exists w3. split; [done|]. rewrite Hback in Hc3. simpl in *.
  split. { rewrite Hc3, Hc2, Hc1, alter_insert_eq. done. }
  split. { by rewrite Hk3, Hk2, Hk1. }
  assert (Hfired : fired exc cl = EventHandler.resolve exc cl)
    by (unfold fired; by rewrite Hdl).
  assert (Hcalls : callbacks_run l cl exc = calls (OneTimeCell l) exc (cell_callbacks cl))
    by (unfold callbacks_run; by rewrite Hdl).
  split. { by rewrite Hcell3, Hcell2, Hcell1, Hfired. }
  rewrite Ht3, Ht2, Ht1, Hcalls. simpl.
  rewrite <- !app_assoc. simpl. rewrite <- ?app_assoc. done.
Qed.

Lemma connection_lost_finishes_consumer_witness :
  ∃ w',
    Connection.connection_lost 0%nat PyNone Scenarios.waiting = (Ret tt, w')
    ∧ consumers w' = consumers Scenarios.waiting.
Proof.
  destruct (connection_lost_finishes_consumer Scenarios.waiting 0%nat
              (Scenarios.connection_of Scenarios.waiting 0%nat)
              1%nat (Scenarios.cell_of Scenarios.waiting 1%nat)
              0%nat (Scenarios.consumer_of Scenarios.waiting 0%nat)
              3%nat 4%nat (Scenarios.cell_of Scenarios.waiting 3%nat)
              (Scenarios.cell_of Scenarios.waiting 4%nat) PyNone)
    as (w' & Hrun & _ & Hk & _).
  - vm_compute. reflexivity.
  - vm_compute. reflexivity.
  - vm_compute. reflexivity.
  - vm_compute. reflexivity.
  - vm_compute. reflexivity.
  - vm_compute. reflexivity.
  - vm_compute. reflexivity.
  - vm_compute. reflexivity.
  - vm_compute. reflexivity.
  - vm_compute. reflexivity.
  - vm_compute. reflexivity.
  - discriminate.
  - discriminate.
  - discriminate.
  - exists w'. split; [exact Hrun | exact Hk].
Defined.

(** X8: once the [connection_lost] event of a connection is resolved, a
    further [connection_lost] does nothing: the consumer is not finished
    again, no failure is logged and no callback runs. *)
Theorem connection_lost_once
    (w : World) (c : conn_id) (cs : ConnectionState) (l : cell_id) (cl : Cell)
    (exc : PyVal) :
  connections w !! c = Some cs →
  connection_events cs !! "connection_lost" = Some (OneTime l) →
  cells w !! l = Some cl → done cl = true →
  ∃ w',
    Connection.connection_lost c exc w = (Ret tt, w')
    ∧ connections w' = connections w ∧ consumers w' = consumers w
    ∧ producers w' = producers w ∧ cells w' = cells w
    ∧ trace w' = trace w ++ [Fire (Connection_ c) "connection_lost" exc].
Proof.
  intros Hcs Hl Hcl Hdl. unfold Connection.connection_lost.
  assert (Hev : events_of w (Connection_ c) = Some (connection_events cs))
    by (simpl; by rewrite Hcs).
  pose proof (fire_event_one_time_producers w (Connection_ c) _ "connection_lost" l cl exc
                Hev Hl Hcl Hdl) as Hprod.
  destruct (fire_event_one_time w (Connection_ c) (connection_events cs) "connection_lost"
              l cl exc Hev Hl Hcl) as (w1 & Hfire & Hk1 & Hc1 & Hcell1 & Ht1).
  rewrite Hfire in Hprod. simpl in Hprod.
  rewrite (bind_Ret _ _ _ _ _ Hfire), Hdl. simpl.
  exists w1. split; [done|]. repeat (split; [done|]). split.
  - rewrite Hcell1. unfold fired. rewrite Hdl. by rewrite insert_id.
  - rewrite Ht1. unfold callbacks_run. by rewrite Hdl.
Qed.

Lemma connection_lost_once_witness :
  ∃ w',
    Connection.connection_lost 0%nat PyNone Edge.lost = (Ret tt, w')
    ∧ cells w' = cells Edge.lost.
Proof.
  destruct (connection_lost_once Edge.lost 0%nat (Scenarios.connection_of Edge.lost 0%nat)
              1%nat (Scenarios.cell_of Edge.lost 1%nat) PyNone)
    as (w' & Hrun & _ & _ & _ & Hcells & _).
  - vm_compute. reflexivity.
  - vm_compute. reflexivity.
  - vm_compute. reflexivity.
  - vm_compute. reflexivity.
  - exists w'. split; [exact Hrun | exact Hcells].
Defined.

(** X9: the first [connection_made] of a connection stores the transport,
    resolves the [connection_made] event with no data, running its callbacks,
    and arms the idle timer if the transport is open and the timeout is
    not 0. *)
Theorem connection_made_first
    (w : World) (c : conn_id) (cs : ConnectionState) (m : cell_id) (cm : Cell)
    (transport : Transport) :
  connections w !! c = Some cs → _transport cs = None → _idle_timeout cs = None →
  connection_events cs !! "connection_made" = Some (OneTime m) →
  cells w !! m = Some cm →
  ∃ w',
    Connection.connection_made c transport w = (Ret tt, w')
    ∧ connections w'
      = <[c := rearmed (Connection.set__transport (Some transport) cs)]> (connections w)
    ∧ consumers w' = consumers w
    ∧ cells w' = <[m := fired PyNone cm]> (cells w)
    ∧ trace w' = trace w ++ Fire (Connection_ c) "connection_made" PyNone
                 :: callbacks_run m cm PyNone.
Proof.
  intros Hcs Htr Hidle Hm Hcm. unfold Connection.connection_made.
  rewrite (bind_Ret _ _ _ _ _ (get_connection_spec _ _ _ Hcs)), Htr.
  unfold bind at 1. unfold put_connection at 1.
  set (cs1 := Connection.set__transport (Some transport) cs).
  set (w1 := set_connections (insert c cs1) w).
  rewrite (bind_Ret _ _ w1 false w1) by done.
  destruct (fire_event_one_time w1 (Connection_ c) (connection_events cs) "connection_made"
              m cm PyNone) as (w2 & Hfire & Hk2 & Hc2 & Hcell2 & Ht2).
  { subst w1. simpl. by rewrite lookup_insert_eq. }
  { done. }
  { done. }
  rewrite (bind_Ret _ _ _ _ _ Hfire).
  destruct (_add_idle_timeout_spec w2 c cs1) as (w3 & Hadd & Hc3 & Hk3 & Hp3 & Hcell3 & Ht3).
  { rewrite Hc2. subst w1. simpl. apply lookup_insert_eq. }
  { done. }
  exists w3. split; [done|].
  split. { rewrite Hc3, Hc2. subst w1. simpl. by rewrite insert_insert_eq. }
  split. { by rewrite Hk3, Hk2. }
  split. { by rewrite Hcell3, Hcell2. }
  by rewrite Ht3, Ht2.
Qed.

Lemma connection_made_first_witness :
  ∃ w',
    Connection.connection_made 0%nat Scenarios.open_transport Edge.pending_connection
    = (Ret tt, w')
    ∧ consumers w' = consumers Edge.pending_connection.
Proof.
  destruct (connection_made_first Edge.pending_connection 0%nat
              (Scenarios.connection_of Edge.pending_connection 0%nat)
              0%nat (Scenarios.cell_of Edge.pending_connection 0%nat)
              Scenarios.open_transport)
    as (w' & Hrun & _ & Hk & _).
  - vm_compute. reflexivity.
  - vm_compute. reflexivity.
  - vm_compute. reflexivity.
  - vm_compute. reflexivity.
  - vm_compute. reflexivity.
  - exists w'. split; [exact Hrun | exact Hk].
Defined.

(** X10: [connection_made] with a transport whose raw socket is the socket of
    the transport the connection has already only replaces the transport and
    arms the idle timer again: the [connection_made] event is not fired. *)
Theorem connection_made_same_socket
    (w : World) (c : conn_id) (cs : ConnectionState) (old transport : Transport) :
  connections w !! c = Some cs → _transport cs = Some old →
  rawsock transport = Some (sock old) →
  ∃ w',
    Connection.connection_made c transport w = (Ret tt, w')
    ∧ connections w'
      = <[c := rearmed (Connection.set__transport (Some transport) cs)]> (connections w)
    ∧ same_but_connections w w'.
Proof.
  intros Hcs Htr Hsock. unfold Connection.connection_made.
  rewrite (bind_Ret _ _ _ _ _ (get_connection_spec _ _ _ Hcs)), Htr.
  unfold bind at 1. unfold put_connection at 1.
  set (cs1 := Connection.set__transport (Some transport) cs).
  set (w1 := set_connections (insert c cs1) w).
  destruct (rearm_spec w1 c cs1) as (w2 & Hrearm & Hc2 & Hk2 & Hp2 & Hcell2 & Ht2).
  { subst w1. simpl. apply lookup_insert_eq. }
  unfold bind in Hrearm. unfold bind.
  destruct (Connection._cancel_timeout c w1) as [[[]|e| |] wc] eqn:Hcancel; try done.
  rewrite bool_decide_eq_true_2 by done.
  exists w2. split; [done|]. split.
  - rewrite Hc2. subst w1. simpl. by rewrite insert_insert_eq.
  - unfold same_but_connections. by rewrite Hk2, Hp2, Hcell2, Ht2.
Qed.

Lemma connection_made_same_socket_witness :
  ∃ w',
    Connection.connection_made 0%nat Edge.wrapped_transport Scenarios.idle = (Ret tt, w')
    ∧ same_but_connections Scenarios.idle w'.
Proof.
  destruct (connection_made_same_socket Scenarios.idle 0%nat
              (Scenarios.connection_of Scenarios.idle 0%nat)
              Scenarios.open_transport Edge.wrapped_transport)
    as (w' & Hrun & _ & Hsame).
  - vm_compute. reflexivity.
  - vm_compute. reflexivity.
  - vm_compute. reflexivity.
  - exists w'. split; [exact Hrun | exact Hsame].
Defined.

(** X11: [upgrade] on a connection without a consumer steals nothing: it only
    replaces the consumer factory, and without a factory it changes
    nothing. *)
Theorem upgrade_without_consumer
    (w : World) (c : conn_id) (cs : ConnectionState)
    (consumer_factory : option Factory) (new_connection : bool) :
  connections w !! c = Some cs → _current_consumer cs = None →
  ∃ w',
    Connection.upgrade c consumer_factory new_connection w = (Ret tt, w')
    ∧ connections w'
      = <[c := Connection.set__consumer_factory
                 (default (_consumer_factory cs) consumer_factory) cs]> (connections w)
    ∧ same_but_connections w w'.
Proof.
  intros Hcs Hcur. unfold Connection.upgrade.
  rewrite (bind_Ret _ _ _ _ _ (get_connection_spec _ _ _ Hcs)), Hcur.
  rewrite (bind_Ret _ _ w consumer_factory w) by done.
  destruct consumer_factory as [f|]; simpl.
  - rewrite (connection_update_spec _ _ _ _ Hcs). eexists. split; [reflexivity|]. by split.
  - exists w. split; [done|]. split; [|by split].
    rewrite insert_id; [done|]. rewrite Hcs. f_equal. by destruct cs.
Qed.

Lemma upgrade_without_consumer_witness :
  ∃ w',
    Connection.upgrade 0%nat (Some (ConsumerClass 0)) false Scenarios.idle = (Ret tt, w')
    ∧ same_but_connections Scenarios.idle w'.
Proof.
  destruct (upgrade_without_consumer Scenarios.idle 0%nat
              (Scenarios.connection_of Scenarios.idle 0%nat)
              (Some (ConsumerClass 0)) false)
    as (w' & Hrun & _ & Hsame).
  - vm_compute. reflexivity.
  - vm_compute. reflexivity.
  - exists w'. split; [exact Hrun | exact Hsame].
Defined.

(** X12: [upgrade] while the current consumer is bound but not started (its
    [pre_request] and [post_request] are pending) raises [AssertionError] and
    changes nothing. *)
Theorem upgrade_before_start
    (w : World) (c : conn_id) (cs : ConnectionState) (a : consumer_id)
    (sa : ConsumerState) (p q : cell_id) (cp cq : Cell)
    (consumer_factory : option Factory) (new_connection : bool) :
  connections w !! c = Some cs → _current_consumer cs = Some a →
  consumers w !! a = Some sa →
  consumer_events sa !! "post_request" = Some (OneTime p) →
  cells w !! p = Some cp → done cp = false →
  consumer_events sa !! "pre_request" = Some (OneTime q) →
  cells w !! q = Some cq → done cq = false →
  Connection.upgrade c consumer_factory new_connection w
  = (Raise (AssertionError "pre_request not done"), w).
Proof.
  intros Hcs Hcur Hsa Hp Hcp Hdp Hq Hcq Hdq. unfold Connection.upgrade.
  rewrite (bind_Ret _ _ _ _ _ (get_connection_spec _ _ _ Hcs)), Hcur.
  assert (Hev : events_of w (Consumer_ a) = Some (consumer_events sa)) by (simpl; by rewrite Hsa).
  assert (Hpost : EventHandler.event (Consumer_ a) "post_request" w = (Ret cp, w)).
  { unfold EventHandler.event. rewrite (bind_Ret _ _ _ _ _ (events_spec _ _ _ Hev)), Hp.
    by apply get_cell_spec. }
  assert (Hpre : EventHandler.event (Consumer_ a) "pre_request" w = (Ret cq, w)).
  { unfold EventHandler.event. rewrite (bind_Ret _ _ _ _ _ (events_spec _ _ _ Hev)), Hq.
    by apply get_cell_spec. }
  unfold bind at 1. unfold bind at 1. rewrite Hpost, Hdp.
  unfold bind at 1. rewrite Hpre, Hdq. done.
Qed.

Lemma upgrade_before_start_witness :
  Connection.upgrade 0%nat (Some (ConsumerClass 0)) false Scenarios.bound_not_started
  = (Raise (AssertionError "pre_request not done"), Scenarios.bound_not_started).
Proof.
  apply (upgrade_before_start Scenarios.bound_not_started 0%nat
           (Scenarios.connection_of Scenarios.bound_not_started 0%nat) 0%nat
           (Scenarios.consumer_of Scenarios.bound_not_started 0%nat)
           4%nat 2%nat (Scenarios.cell_of Scenarios.bound_not_started 4%nat)
           (Scenarios.cell_of Scenarios.bound_not_started 2%nat)).
  - vm_compute. reflexivity.
  - vm_compute. reflexivity.
  - vm_compute. reflexivity.
  - vm_compute. reflexivity.
  - vm_compute. reflexivity.
  - vm_compute. reflexivity.
  - vm_compute. reflexivity.
  - vm_compute. reflexivity.
  - vm_compute. reflexivity.
Defined.

(** X13: [upgrade] while the current consumer has its [post_request]
    resolved steals nothing either: it only replaces the consumer factory. *)
Theorem upgrade_after_post_request
    (w : World) (c : conn_id) (cs : ConnectionState) (a : consumer_id)
    (sa : ConsumerState) (p : cell_id) (cp : Cell)
    (consumer_factory : option Factory) (new_connection : bool) :
  connections w !! c = Some cs → _current_consumer cs = Some a →
  consumers w !! a = Some sa →
  consumer_events sa !! "post_request" = Some (OneTime p) →
  cells w !! p = Some cp → done cp = true →
  ∃ w',
    Connection.upgrade c consumer_factory new_connection w = (Ret tt, w')
    ∧ connections w'
      = <[c := Connection.set__consumer_factory
                 (default (_consumer_factory cs) consumer_factory) cs]> (connections w)
    ∧ same_but_connections w w'.
Proof.
  intros Hcs Hcur Hsa Hp Hcp Hdp. unfold Connection.upgrade.
  rewrite (bind_Ret _ _ _ _ _ (get_connection_spec _ _ _ Hcs)), Hcur.
  assert (Hev : events_of w (Consumer_ a) = Some (consumer_events sa)) by (simpl; by rewrite Hsa).
  assert (Hpost : EventHandler.event (Consumer_ a) "post_request" w = (Ret cp, w)).
  { unfold EventHandler.event. rewrite (bind_Ret _ _ _ _ _ (events_spec _ _ _ Hev)), Hp.
    by apply get_cell_spec. }
  unfold bind at 1. unfold bind at 1. rewrite Hpost, Hdp.
  destruct consumer_factory as [f|]; simpl.
  - rewrite (connection_update_spec _ _ _ _ Hcs). eexists. split; [reflexivity|]. by split.
  - exists w. split; [done|]. split; [|by split].
    rewrite insert_id; [done|]. rewrite Hcs. f_equal. by destruct cs.
Qed.

Lemma upgrade_after_post_request_witness :
  ∃ w',
    Connection.upgrade 0%nat (Some (ConsumerClass 0)) true Edge.request_done = (Ret tt, w')
    ∧ same_but_connections Edge.request_done w'.
Proof.
  destruct (upgrade_after_post_request Edge.request_done 0%nat
              (Scenarios.connection_of Edge.request_done 0%nat) 0%nat
              (Scenarios.consumer_of Edge.request_done 0%nat)
              4%nat (Scenarios.cell_of Edge.request_done 4%nat)
              (Some (ConsumerClass 0)) true)
    as (w' & Hrun & _ & Hsame).
  - vm_compute. reflexivity.
  - vm_compute. reflexivity.
  - vm_compute. reflexivity.
  - vm_compute. reflexivity.
  - vm_compute. reflexivity.
  - vm_compute. reflexivity.
  - exists w'. split; [exact Hrun | exact Hsame].
Defined.

(** X14: a consumer finishes once: after [finished], a second [finished]
    resolves nothing and runs no callback; the outcomes of [finish] and
    [post_request] are those of the first call. *)
Theorem finished_once
    (w : World) (self : consumer_id) (s : ConsumerState) (result result' : PyVal)
    (i j : cell_id) (ci cj : Cell) :
  consumers w !! self = Some s →
  (∀ c, _connection s = Some c → is_Some (connections w !! c)) →
  consumer_events s !! "finish" = Some (OneTime i) → cells w !! i = Some ci →
  consumer_events s !! "post_request" = Some (OneTime j) → cells w !! j = Some cj →
  i ≠ j →
  ∃ w1 w2,
    ProtocolConsumer.finished self result w = (Ret tt, w1)
    ∧ ProtocolConsumer.finished self result' w1 = (Ret tt, w2)
    ∧ cells w1 !! i = Some (fired result ci) ∧ cells w1 !! j = Some (fired result cj)
    ∧ cells w2 = cells w1 ∧ consumers w2 = consumers w1
    ∧ connections w2 = connections w1
    ∧ trace w2 = trace w1 ++ [Fire (Consumer_ self) "finish" result';
                              Fire (Consumer_ self) "post_request" result'].
Proof.
  intros Hs Hconn Hi Hci Hj Hcj Hij.
  destruct (finished_spec w self s result i ci j cj) as (w1 & Hrun1 & Hk1 & Hc1 & Hcell1 & Ht1);
    try done.
  assert (Hi1 : cells w1 !! i = Some (fired result ci))
    by (rewrite Hcell1; by rewrite lookup_insert_ne, lookup_insert_eq).
  assert (Hj1 : cells w1 !! j = Some (fired result cj))
    by (rewrite Hcell1; by rewrite lookup_insert_eq).
  destruct (finished_spec w1 self s result' i (fired result ci) j (fired result cj))
    as (w2 & Hrun2 & Hk2 & Hc2 & Hcell2 & Ht2); try done.
  { by rewrite Hk1. }
  { intros c Hc. rewrite Hc1, Hc. destruct (Hconn c Hc) as [cs Hcs].
    rewrite lookup_alter_eq, Hcs. eauto. }
  exists w1, w2. repeat (split; [done|]).
  split. { rewrite Hcell2, !fired_fired. by rewrite (insert_id _ _ _ Hi1), (insert_id _ _ _ Hj1). }
  split; [done|]. split.
  { rewrite Hc2, Hc1. destruct (_connection s) as [c|]; [|done].
    rewrite alter_alter_eq. apply alter_ext. intros cs _. reflexivity. }
  rewrite Ht2, !callbacks_run_fired. done.
Qed.

Lemma finished_once_witness :
  ∃ w1 w2,
    ProtocolConsumer.finished 0%nat PyNone Scenarios.waiting = (Ret tt, w1)
    ∧ ProtocolConsumer.finished 0%nat (PyObj 1) w1 = (Ret tt, w2)
    ∧ cells w2 = cells w1.
Proof.
  destruct (finished_once Scenarios.waiting 0%nat
              (Scenarios.consumer_of Scenarios.waiting 0%nat) PyNone (PyObj 1)
              3%nat 4%nat (Scenarios.cell_of Scenarios.waiting 3%nat)
              (Scenarios.cell_of Scenarios.waiting 4%nat))
    as (w1 & w2 & Hrun1 & Hrun2 & _ & _ & Hcells & _).
  - vm_compute. reflexivity.
  - intros c Hc. vm_compute in Hc. injection Hc as <-. vm_compute. eauto.
  - vm_compute. reflexivity.
  - vm_compute. reflexivity.
  - vm_compute. reflexivity.
  - vm_compute. reflexivity.
  - discriminate.
  - exists w1, w2. split; [exact Hrun1|]. split; [exact Hrun2 | exact Hcells].
Defined.

(** X15: the budget of reconnections.  For a consumer that is not on a stale
    kept-alive connection, [n] calls of [can_reconnect] in a row that fit in
    [max_reconnect] return [retries + 1], ..., [retries + n] and leave the
    counter at [retries + n]. *)
Theorem can_reconnect_budget (n : nat) :
  ∀ (w : World) (self : consumer_id) (s : ConsumerState) (max_reconnect : Z)
    (exc : Failure),
    consumers w !! self = Some s →
    (∀ conn, _connection s = Some conn → is_Some (connections w !! conn)) →
    ¬ stale w s →
    _reconnect_retries s + Z.of_nat n ≤ max_reconnect →
    ∃ w',
      can_reconnects n self max_reconnect exc w
      = (Ret (attempts (_reconnect_retries s) n), w')
      ∧ consumers w'
        = <[self := ProtocolConsumer.set__reconnect_retries
                      (_reconnect_retries s + Z.of_nat n) s]> (consumers w)
      ∧ connections w' = connections w.
Proof.
  induction n as [|n IH]; intros w self s max_reconnect exc Hs Hconn Hstale Hle.
  - exists w. cbn [can_reconnects]. split; [done|]. split; [|done].
    rewrite insert_id; [done|]. rewrite Hs. f_equal. destruct s.
    unfold ProtocolConsumer.set__reconnect_retries. simpl. f_equal. lia.
  - cbn [can_reconnects].
    assert (Hstep := can_reconnect_step w self s max_reconnect exc Hs Hconn Hstale
                       ltac:(lia)).
    rewrite (bind_Ret _ _ _ _ _ Hstep). cbn [fst snd].
    set (s1 := ProtocolConsumer.set__reconnect_retries (_reconnect_retries s + 1) s).
    set (w1 := set_consumers (insert self s1) w).
    destruct (IH w1 self s1 max_reconnect
                {| logged := logged exc; log_calls := S (log_calls exc) |})
      as (w' & Hres & Hk & Hc).
    { subst w1. simpl. apply lookup_insert_eq. }
    { exact Hconn. }
    { intros (conn & cs & ? & ? & ? & ?). apply Hstale. by exists conn, cs. }
    { subst s1. simpl. lia. }
    exists w'. rewrite (bind_Ret _ _ _ _ _ Hres).
    split; [by rewrite attempts_cons|]. split; [|done].
    rewrite Hk. subst w1 s1. simpl. rewrite insert_insert_eq. f_equal.
    unfold ProtocolConsumer.set__reconnect_retries. simpl. f_equal. lia.
Qed.

Lemma can_reconnect_budget_witness :
  ∃ w',
    can_reconnects 2 0%nat 3 {| logged := false; log_calls := 0 |} Scenarios.waiting
    = (Ret (attempts (_reconnect_retries (Scenarios.consumer_of Scenarios.waiting 0%nat)) 2),
       w')
    ∧ connections w' = connections Scenarios.waiting.
Proof.
  destruct (can_reconnect_budget 2 Scenarios.waiting 0%nat
              (Scenarios.consumer_of Scenarios.waiting 0%nat) 3
              {| logged := false; log_calls := 0 |})
    as (w' & Hrun & _ & Hc).
  - vm_compute. reflexivity.
  - intros c Hc. vm_compute in Hc. injection Hc as <-. vm_compute. eauto.
  - intros (conn & cs & _ & _ & _ & H). vm_compute in H. discriminate.
  - vm_compute. discriminate.
  - exists w'. split; [exact Hrun | exact Hc].
Defined.

(** X16: a connection admitted by [new_connection] is a new connection
    whose session is the new value of [received]; it has the timeout of the
    producer, the given consumer factory and the producer given (the caller
    by default), and no transport, no consumer and nothing processed.  The
    counter goes up by one and no event is fired. *)
Theorem new_connection_builds
    (w : World) (self : producer_id) (s : ProducerState) (f : Factory)
    (producer : option producer_id) :
  producers w !! self = Some s →
  ¬ (_max_connections s ≠ 0 ∧ _max_connections s ≤ _received s) →
  is_Some (producers w !! default self producer) →
  ∃ conn ev w',
    ConnectionProducer.new_connection self f producer w = (Ret conn, w')
    ∧ connections w !! conn = None
    ∧ connections w'
      = <[conn := new_connection_state (_received s + 1) f
                    (Some (default self producer)) (producer_timeout s) ev]>
          (connections w)
    ∧ _received <$> producers w' !! self = Some (_received s + 1)
    ∧ consumers w' = consumers w ∧ trace w' = trace w.
Proof.
  intros Hs Hcap Hps.
  destruct (new_connection_built w self s f producer Hs Hcap Hps)
    as (conn & i0 & i1 & ev & w' & Hrun & Hp & Hfresh & Hc & _ & _ & _ & _ & _ & _ & Hk & Ht).
  exists conn, ev, w'. repeat (split; [done|]). split; [|done].
  by rewrite Hp, lookup_insert_eq.
Qed.

Lemma new_connection_builds_witness :
  ∃ conn w',
    ConnectionProducer.new_connection 0%nat (ConsumerClass 1) None Edge.fresh_producer
    = (Ret conn, w')
    ∧ _received <$> producers w' !! 0%nat = Some 1.
Proof.
  destruct (new_connection_builds Edge.fresh_producer 0%nat
              (default (ConnectionProducer.set__received 0
                          {| producer_timeout := 0; _max_connections := 0; _received := 0;
                             _concurrent_connections := ∅; producer_events := ∅ |})
                 (producers Edge.fresh_producer !! 0%nat))
              (ConsumerClass 1) None)
    as (conn & ev & w' & Hrun & _ & _ & Hr & _).
  - vm_compute. reflexivity.
  - intros [_ H]. vm_compute in H. apply H. reflexivity.
  - vm_compute. eauto.
  - exists conn, w'. split; [exact Hrun | exact Hr].
Defined.



(** X18: a producer never has [max_connections = 0]: [Producer.__init__]
    turns both a missing and a zero [max_connections] into [2 ** 31] and
    keeps any other value; the new producer has received nothing and has no
    live connection. *)
Theorem producer_init_max_connections
    (w : World) (timeout max_connections : option Z) :
  ∃ p s w',
    ConnectionProducer.__init__ timeout max_connections w = (Ret p, w')
    ∧ producers w !! p = None
    ∧ producers w' = <[p := s]> (producers w)
    ∧ _max_connections s ≠ 0
    ∧ _max_connections s
      = (if bool_decide (max_connections = None ∨ max_connections = Some 0)
         then 2 ^ 31 else default 0 max_connections)
    ∧ _received s = 0 ∧ _concurrent_connections s = ∅
    ∧ producer_timeout s = default 0 timeout.
Proof.
  rewrite producer_init_spec. eexists _, _, _. split; [reflexivity|].
  split; [apply not_elem_of_dom, is_fresh|]. split; [done|]. simpl.
  split; [|split; [|done]].
  - destruct max_connections as [m|]; [|done]. by destruct (m =? 0) eqn:Hm; [|lia].
  - destruct max_connections as [m|].
    + destruct (m =? 0) eqn:Hm.
      * rewrite bool_decide_eq_true_2; [done|]. right. f_equal. lia.
      * rewrite bool_decide_eq_false_2; [done|]. intros [?|[= ?]]; [done|lia].
    + by rewrite bool_decide_eq_true_2 by auto.
Qed.

(** X19: [has_finished] is [True] after [finished], whatever the result and
    whether or not the consumer holds a connection; before, it tells whether
    the [finish] event was already done. *)
Theorem has_finished_after_finished
    (w : World) (self : consumer_id) (s : ConsumerState) (result : PyVal)
    (i j : cell_id) (ci cj : Cell) :
  consumers w !! self = Some s →
  (∀ c, _connection s = Some c → is_Some (connections w !! c)) →
  consumer_events s !! "finish" = Some (OneTime i) → cells w !! i = Some ci →
  consumer_events s !! "post_request" = Some (OneTime j) → cells w !! j = Some cj →
  i ≠ j →
  ∃ w1,
    ProtocolConsumer.finished self result w = (Ret tt, w1)
    ∧ has_finished self w1 = (Ret true, w1)
    ∧ has_finished self w = (Ret (done ci), w).
Proof.
  intros Hs Hconn Hi Hci Hj Hcj Hij.
  destruct (finished_spec w self s result i ci j cj Hs Hconn Hi Hci Hj Hcj Hij)
    as (w1 & Hrun & Hk & _ & Hcells & _).
  exists w1. split; [exact Hrun|]. split.
  - rewrite <- (done_fired result ci).
    apply (has_finished_spec w1 self s i); [by rewrite Hk | done |].
    rewrite Hcells. by rewrite lookup_insert_ne, lookup_insert_eq by done.
  - by apply (has_finished_spec w self s i).
Qed.

Lemma has_finished_after_finished_witness :
  ∃ w1,
    ProtocolConsumer.finished 0%nat PyNone Scenarios.waiting = (Ret tt, w1)
    ∧ has_finished 0%nat w1 = (Ret true, w1)
    ∧ has_finished 0%nat Scenarios.waiting = (Ret false, Scenarios.waiting).
Proof.
  destruct (has_finished_after_finished Scenarios.waiting 0%nat
              (Scenarios.consumer_of Scenarios.waiting 0%nat) PyNone
              3%nat 4%nat (Scenarios.cell_of Scenarios.waiting 3%nat)
              (Scenarios.cell_of Scenarios.waiting 4%nat))
    as (w1 & Hrun & Hafter & Hbefore).
  - vm_compute. reflexivity.
  - intros c Hc. vm_compute in Hc. injection Hc as <-. vm_compute. eauto.
  - vm_compute. reflexivity.
  - vm_compute. reflexivity.
  - vm_compute. reflexivity.
  - vm_compute. reflexivity.
  - discriminate.
  - exists w1. split; [exact Hrun|]. split; [exact Hafter | exact Hbefore].
Defined.

